(** * github-metrics-calculator: a shallow embedding of the aggregation code

    The development follows the JavaScript sources:
    - [src/lib/github-client.js]  (the API client, pagination, AI detection),
    - [src/commands/pr-metrics.js], [src/commands/user-stats.js],
      [src/commands/repo-stats.js], [src/commands/summary.js] (per-PR loops
      and summary statistics),
    - [src/lib/formatters.js] and the two [exportToCSV] variants of the
      summary command.

    Conventions of the embedding.
    - JavaScript numbers that hold counts are [nat]; numbers that hold
      durations, quotients and averages are exact rationals [Q].  IEEE
      rounding of doubles is not modelled: [/] is exact division and
      [toFixed] rounds the exact value, half away from zero as the
      language definition of [Number.prototype.toFixed] prescribes.
    - A timestamp field ([created_at], [merged_at], [closed_at]) is the
      result of [new Date(field)] in milliseconds, an integer; a field that
      is [null] is [None].
    - Strings are [string], read as sequences of 8-bit code units; a
      JavaScript [Map] or object used as a dictionary is a [gmap], a [Set]
      that is later turned into an array is a duplicate-free list in
      insertion order.
    - Remote calls are answered by an explicit oracle (a function from
      requests to pages, or the outcome of each detail fetch), and output is
      an explicit list of writes. *)

From Stdlib Require Import ZArith QArith Qround Qabs Lia Lqa.
From Stdlib Require Import Ascii String.
From stdpp Require Import gmap strings list pretty.

Local Open Scope string_scope.

Set Warnings "-clear-no-such-hyp".

(** ** JavaScript numbers *)

Module JsNum.

Local Open Scope Q_scope.

(** Truthiness of a number: [0] is falsy, every other rational is truthy. *)
Definition truthy (x : Q) : bool := negb (Qnum x =? 0)%Z.

(** Truthiness of a nullable number: [null] is falsy. *)
Definition truthyOpt (x : option Q) : bool :=
  match x with
  | Some v => truthy v
  | None => false
  end.

(** [x.toFixed(f)] picks the integer [n] with [n / 10^f] closest to [x],
    the larger one on a tie, after taking the sign off. *)
Definition fixedMagnitude (f : nat) (x : Q) : Z :=
  Qfloor (Qabs x * inject_Z (10 ^ Z.of_nat f) + (1 # 2)).

Definition isNegative (x : Q) : bool := (Qnum x <? 0)%Z.

(** The same [n] with the sign put back. *)
Definition fixedUnits (f : nat) (x : Q) : Z :=
  if isNegative x then (- fixedMagnitude f x)%Z else fixedMagnitude f x.

(** [Number(x.toFixed(f))] *)
Definition toFixedNumber (f : nat) (x : Q) : Q :=
  inject_Z (fixedUnits f x) / inject_Z (10 ^ Z.of_nat f).

(** [a / b] on two counts. *)
Definition ratio (a b : nat) : Q := inject_Z (Z.of_nat a) / inject_Z (Z.of_nat b).

(** [n || d] on a count. *)
Definition orCount (n d : nat) : nat :=
  match n with
  | O => d
  | S _ => n
  end.

End JsNum.

(** ** JavaScript strings *)

Module JsStr.

(** [parts.join(sep)] *)
Fixpoint join (sep : string) (parts : list string) : string :=
  match parts with
  | [] => EmptyString
  | [p] => p
  | p :: rest => p +:+ sep +:+ join sep rest
  end.

(** [s.split(c)] for a one-character separator: the pieces between the
    separators, always at least one piece. *)
Fixpoint split (c : ascii) (s : string) : list string :=
  match s with
  | EmptyString => [EmptyString]
  | String a s' =>
      if Ascii.eqb a c then EmptyString :: split c s'
      else match split c s' with
           | p :: ps => String a p :: ps
           | [] => [String a EmptyString]
           end
  end.

(** [parts[parts.length - k]] inside a template literal: an index that is
    out of range reads [undefined], which prints as the word undefined. *)
Definition fromEnd (parts : list string) (k : nat) : string :=
  if (k <=? length parts)%nat
  then nth (length parts - k) parts "undefined"
  else "undefined".

(** The double-quote character, code unit 34. *)
Definition dquote : ascii := ascii_of_nat 34.

(** [s.replace(/dquote/g, dquote dquote)]: every double quote is doubled. *)
Fixpoint doubleQuotes (s : string) : string :=
  match s with
  | EmptyString => EmptyString
  | String a s' =>
      if Ascii.eqb a dquote
      then String dquote (String dquote (doubleQuotes s'))
      else String a (doubleQuotes s')
  end.

(** [s.endsWith(suffix)] *)
Definition endsWith (s suffix : string) : bool :=
  (String.length suffix <=? String.length s)%nat &&
  String.eqb (substring (String.length s - String.length suffix) (String.length suffix) s) suffix.

(** White space removed by [trim], among 8-bit code units. *)
Definition isSpace (a : ascii) : bool :=
  let n := nat_of_ascii a in
  ((9 <=? n) && (n <=? 13) || (n =? 32) || (n =? 160))%nat.

Fixpoint trimStart (s : string) : string :=
  match s with
  | EmptyString => EmptyString
  | String a s' => if isSpace a then trimStart s' else s
  end.

Definition trimEnd (s : string) : string :=
  String.rev (trimStart (String.rev s)).

(** [s.trim()] *)
Definition trim (s : string) : string := trimEnd (trimStart s).

(** [String(n)] for a number that is a whole number of hundredths [h / 100]
    (every non-integer number that reaches a CSV cell went through
    [toFixed(2)]): the shortest decimal, without trailing zeros. *)
Definition showHundredths (h : Z) : string :=
  let m := Z.abs h in
  let ip := (m / 100)%Z in
  let d1 := ((m / 10) mod 10)%Z in
  let d2 := (m mod 10)%Z in
  let sign := if (h <? 0)%Z then "-" else EmptyString in
  sign +:+ pretty ip +:+
  (if (d2 =? 0)%Z
   then (if (d1 =? 0)%Z then EmptyString else "." +:+ pretty d1)
   else "." +:+ pretty d1 +:+ pretty d2).

(** Left padding with zeros up to [n] characters. *)
Fixpoint zeros (n : nat) : string :=
  match n with
  | O => EmptyString
  | S k => String "0"%char (zeros k)
  end.

(** [x.toFixed(f)] as a string: the digits of the rounded magnitude with
    exactly [f] of them after the point, and a minus sign in front when [x < 0]. *)
Definition toFixed (f : nat) (x : Q) : string :=
  let digits := pretty (JsNum.fixedMagnitude f x) in
  let padded := zeros (S f - String.length digits) +:+ digits in
  let k := (String.length padded - f)%nat in
  let sign := if JsNum.isNegative x then "-" else EmptyString in
  match f with
  | O => sign +:+ padded
  | S _ => sign +:+ substring 0 k padded +:+ "." +:+ substring k f padded
  end.

End JsStr.

(** ** Regular expressions with the [i] flag

    The patterns of [detectAICoAuthorship] use literals, [.], [*], sequence
    and alternation.  [pattern.test(s)] holds when some substring of [s]
    belongs to the language of the pattern. *)

Module Regex.

Inductive re : Type :=
| Fail                 (* matches nothing; only arises from derivatives *)
| Eps                  (* the empty string *)
| Chr (c : ascii)      (* a literal character *)
| Dot                  (* [.] : any character but a line terminator *)
| Seq (r s : re)
| Alt (r s : re)
| Star (r : re).

(** Canonicalisation of a code unit under the [i] flag: the upper-case form
    when that is again one code unit.  Among 8-bit code units these are the
    letters [a-z] and the accented letters 224-254 apart from the division
    sign 247; a non-ASCII code unit never folds onto an ASCII one. *)
Definition canonicalize (a : ascii) : ascii :=
  let n := nat_of_ascii a in
  if ((97 <=? n) && (n <=? 122) || (224 <=? n) && (n <=? 254) && negb (n =? 247))%nat
  then ascii_of_nat (n - 32)
  else a.

(** Line terminators among 8-bit code units: LF and CR. *)
Definition isLineTerminator (a : ascii) : bool :=
  let n := nat_of_ascii a in ((n =? 10) || (n =? 13))%nat.

Fixpoint nullable (r : re) : bool :=
  match r with
  | Fail => false
  | Eps => true
  | Chr _ => false
  | Dot => false
  | Seq r s => nullable r && nullable s
  | Alt r s => nullable r || nullable s
  | Star _ => true
  end.

(** The residual of [r] after reading the code unit [a]. *)
Fixpoint deriv (a : ascii) (r : re) : re :=
  match r with
  | Fail => Fail
  | Eps => Fail
  | Chr c => if Ascii.eqb (canonicalize c) (canonicalize a) then Eps else Fail
  | Dot => if isLineTerminator a then Fail else Eps
  | Seq r s =>
      if nullable r then Alt (Seq (deriv a r) s) (deriv a s)
      else Seq (deriv a r) s
  | Alt r s => Alt (deriv a r) (deriv a s)
  | Star r => Seq (deriv a r) (Star r)
  end.

(** Some prefix of [s] belongs to the language of [r]. *)
Fixpoint matchesPrefix (r : re) (s : string) : bool :=
  nullable r ||
  match s with
  | EmptyString => false
  | String a s' => matchesPrefix (deriv a r) s'
  end.

(** [r.test(s)]: a match starts at some position of [s]. *)
Fixpoint test (r : re) (s : string) : bool :=
  matchesPrefix r s ||
  match s with
  | EmptyString => false
  | String _ s' => test r s'
  end.

(** A literal string as a pattern. *)
Fixpoint lit (s : string) : re :=
  match s with
  | EmptyString => Eps
  | String a s' => Seq (Chr a) (lit s')
  end.

End Regex.

(** ** AI co-authorship detection (github-client.js, [detectAICoAuthorship]) *)

Module AiDetection.

Import Regex.

(** [/co-authored-by:.*<name>/i] *)
Definition coAuthoredBy (name : string) : re :=
  Seq (lit "co-authored-by:") (Seq (Star Dot) (lit name)).

Definition aiPatterns : list (re * string) :=
  [ (coAuthoredBy "claude", "Claude");
    (coAuthoredBy "anthropic", "Claude");
    (coAuthoredBy "copilot", "GitHub Copilot");
    (coAuthoredBy "openai", "OpenAI");
    (coAuthoredBy "chatgpt", "ChatGPT");
    (coAuthoredBy "cursor", "Cursor");
    (Alt (lit "[ai]") (Alt (lit "[ai-generated]") (Alt (lit "[copilot]") (lit "[claude]"))),
     "AI (tagged)") ].

Record Detection := mkDetection {
  isAIAssisted : bool;
  aiTools : list string;
}.

(** [detectedTools.includes(tool)] *)
Definition includes (tools : list string) (tool : string) : bool :=
  existsb (String.eqb tool) tools.

(** One turn of the [for ... of aiPatterns] loop. *)
Definition detectStep (commitMessage : string) (detectedTools : list string)
    (p : re * string) : list string :=
  let '(pattern, tool) := p in
  if test pattern commitMessage
  then (if negb (includes detectedTools tool) then detectedTools ++ [tool] else detectedTools)
  else detectedTools.

Definition detectAICoAuthorship (commitMessage : string) : Detection :=
  let detectedTools := fold_left (detectStep commitMessage) aiPatterns [] in
  {| isAIAssisted := (0 <? length detectedTools)%nat;
     aiTools := detectedTools |}.

(** [aiToolsUsed.add(tool)] on a [Set] kept in insertion order. *)
Definition setAdd (s : list string) (tool : string) : list string :=
  if includes s tool then s else s ++ [tool].

(** The running pair [(aiAssisted, aiToolsUsed)] of the per-PR loops:
    [for (const commit of commits) { ... }] over the commit messages. *)
Definition scanStep (acc : bool * list string) (message : string) : bool * list string :=
  let detection := detectAICoAuthorship message in
  if isAIAssisted detection
  then (true, fold_left setAdd (aiTools detection) (snd acc))
  else acc.

Definition scanCommits (messages : list string) : bool * list string :=
  fold_left scanStep messages (false, []).

End AiDetection.

(** ** Records delivered by the remote API

    Only the fields that the code reads are kept.  [r.user.login] is the
    field [user_login]. *)

Module Review.
Record t := mk { user_login : string; state : string }.
End Review.

Module Comment.
Record t := mk { user_login : string }.
End Comment.

(** An element of [pulls.listCommits]; [message] is [commit.commit.message]. *)
Module Commit.
Record t := mk { message : string }.
End Commit.

(** An element of [pulls.list]. *)
Module ListedPR.
Record t := mk { number : nat; user_login : string; created_at : string }.
End ListedPR.

(** The answer of [pulls.get]. *)
Module PullRequest.
Record t := mk {
  number : nat;
  title : string;
  state : string;
  user_login : string;
  created_at : string;
  merged_at : option string;
  closed_at : option string;
  html_url : string;
  additions : nat;
  deletions : nat;
  changed_files : nat;
}.
End PullRequest.

(** An element of [search.issuesAndPullRequests].  [pull_request] is absent
    on issues; [merged_at] is [pull_request.merged_at]. *)
Module SearchItem.
Record t := mk {
  number : nat;
  title : string;
  repository_url : string;
  state : string;
  comments : option nat;
  pull_request : option (option string);
  created_at : string;
  closed_at : option string;
  html_url : string;
}.

(** [pr.pull_request?.merged_at] *)
Definition merged_at (pr : t) : option string :=
  match pull_request pr with
  | Some m => m
  | None => None
  end.
End SearchItem.

(** Truthiness of a nullable string: [null], [undefined] and the empty
    string are falsy. *)
Definition truthyStr (s : option string) : bool :=
  match s with
  | Some EmptyString => false
  | Some _ => true
  | None => false
  end.

(** [s || d] on a nullable string. *)
Definition orStr (s : option string) (d : string) : string :=
  match s with
  | Some (String a r) => String a r
  | _ => d
  end.

(** [1000 * 60 * 60 * 24] *)
Definition MS_PER_DAY : Z := 1000 * 60 * 60 * 24.

(** ** The API client (github-client.js) *)

Module GitHubClient.

Record t := mk { auth : string; userAgent : string }.

(** The constructor: it throws when the token is falsy. *)
Definition new (token : option string) : string + t :=
  if negb (truthyStr token)
  then inl "GitHub token is required. Set GITHUB_TOKEN env var or use --token flag"
  else inr {| auth := orStr token EmptyString;
              userAgent := "github-metrics-calculator/1.0.0" |}.

(** The paginated endpoints with their arguments besides [per_page] and
    [page]. *)
Inductive Endpoint : Type :=
| PullsList (owner repo state : string)
| SearchCommits (q sort order : string)
| SearchIssuesAndPullRequests (q sort order : string)
| ListPublicEventsForUser (username : string).

Record Request := mkRequest { endpoint : Endpoint; per_page : nat; page : nat }.

(** The options that the fetches read. *)
Record Options := mkOptions {
  since : option string;
  until : option string;
  state : option string;
  org : option string;
  repo : option string;
}.

(** The variables of a pagination loop, and the requests issued so far. *)
Record Paging (A : Type) := mkPaging {
  items : list A;
  page_ : nat;
  hasMore : bool;
  requests : list Request;
}.
Arguments mkPaging {A}.
Arguments items {A}.
Arguments page_ {A}.
Arguments hasMore {A}.
Arguments requests {A}.

Definition start {A : Type} : Paging A :=
  {| items := []; page_ := 1; hasMore := true; requests := [] |}.

(** [while (cond) body], run for at most [fuel] turns: [None] when the loop
    is still running after them. *)
Fixpoint while {St : Type} (fuel : nat) (cond : St → bool) (body : St → St) (st : St)
    : option St :=
  match fuel with
  | O => None
  | S n => if cond st then while n cond body (body st) else Some st
  end.

(** The body shared by the loops: request page [page] with [per_page: 100],
    push the (filtered) page, continue when the page was full. *)
Definition turn {A : Type} (octokit : Request → list A) (e : Endpoint)
    (keep : list A → list A) (st : Paging A) : Paging A :=
  let request := {| endpoint := e; per_page := 100; page := page_ st |} in
  let data := octokit request in
  {| items := items st ++ keep data;
     page_ := S (page_ st);
     hasMore := (length data =? 100)%nat;
     requests := requests st ++ [request] |}.

Section Fetches.

(** [new Date(s)] as a number of milliseconds. *)
Variable Date : string → Z.

(** The client-side date filters of [fetchUserPRs] and [fetchRepoPRs]. *)
Definition dateFilter (options : Options) (prs : list ListedPR.t) : list ListedPR.t :=
  let prs :=
    if truthyStr (since options)
    then List.filter (fun pr => (Date (orStr (since options) EmptyString)
                                   <=? Date (ListedPR.created_at pr))%Z) prs
    else prs in
  if truthyStr (until options)
  then List.filter (fun pr => (Date (ListedPR.created_at pr)
                                 <=? Date (orStr (until options) EmptyString))%Z) prs
  else prs.

(** [fetchUserPRs]: [while (hasMore)]. *)
Definition fetchUserPRs (octokit : Request → list ListedPR.t)
    (owner repo username : string) (options : Options) (fuel : nat)
    : option (Paging ListedPR.t) :=
  while fuel hasMore
    (turn octokit (PullsList owner repo (orStr (state options) "all"))
       (fun data =>
          dateFilter options
            (List.filter (fun pr => String.eqb (ListedPR.user_login pr) username) data)))
    start.

(** [fetchRepoPRs]: [while (hasMore)]. *)
Definition fetchRepoPRs (octokit : Request → list ListedPR.t)
    (owner repo : string) (options : Options) (fuel : nat)
    : option (Paging ListedPR.t) :=
  while fuel hasMore
    (turn octokit (PullsList owner repo (orStr (state options) "all"))
       (dateFilter options))
    start.

End Fetches.

(** [while (hasMore && page <= cap)] *)
Definition capped {A : Type} (cap : nat) (st : Paging A) : bool :=
  hasMore st && (page_ st <=? cap)%nat.

Definition sinceUntil (field : string) (options : Options) : string :=
  (if truthyStr (since options)
   then " " +:+ field +:+ ":>=" +:+ orStr (since options) EmptyString
   else EmptyString) +:+
  (if truthyStr (until options)
   then " " +:+ field +:+ ":<=" +:+ orStr (until options) EmptyString
   else EmptyString).

(** [fetchUserCommits]: at most 10 pages. *)
Definition fetchUserCommits {A : Type} (octokit : Request → list A)
    (username : string) (options : Options) (fuel : nat) : option (Paging A) :=
  let query := "author:" +:+ username +:+ sinceUntil "committer-date" options in
  while fuel (capped 10)
    (turn octokit (SearchCommits query "committer-date" "desc") (fun data => data))
    start.

(** [fetchUserEvents]: at most 3 pages. *)
Definition fetchUserEvents {A : Type} (octokit : Request → list A)
    (username : string) (fuel : nat) : option (Paging A) :=
  while fuel (capped 3)
    (turn octokit (ListPublicEventsForUser username) (fun data => data))
    start.

(** [(org:a org:b)] from the comma-separated [options.org]. *)
Definition orgQuery (options : Options) : string :=
  if truthyStr (org options)
  then
    let orgs := JsStr.trim <$> JsStr.split ","%char (orStr (org options) EmptyString) in
    " (" +:+ JsStr.join " " ((fun o => "org:" +:+ o) <$> orgs) +:+ ")"
  else EmptyString.

(** [fetchUserPRsAcrossRepos]: at most 10 pages. *)
Definition fetchUserPRsAcrossRepos (octokit : Request → list SearchItem.t)
    (username : string) (options : Options) (fuel : nat)
    : option (Paging SearchItem.t) :=
  let query :=
    "author:" +:+ username +:+ " is:pr" +:+ orgQuery options +:+
    (if truthyStr (repo options)
     then " repo:" +:+ orStr (repo options) EmptyString else EmptyString) +:+
    sinceUntil "created" options +:+
    (match state options with
     | Some "merged" => " is:merged"
     | Some "open" => " is:open"
     | Some "closed" => " is:closed"
     | _ => EmptyString
     end) in
  while fuel (capped 10)
    (turn octokit (SearchIssuesAndPullRequests query "created" "desc") (fun data => data))
    start.

(** [fetchUserIssuesAcrossRepos]: at most 10 pages. *)
Definition fetchUserIssuesAcrossRepos (octokit : Request → list SearchItem.t)
    (username : string) (options : Options) (fuel : nat)
    : option (Paging SearchItem.t) :=
  let query :=
    "author:" +:+ username +:+ " is:issue" +:+ orgQuery options +:+
    sinceUntil "created" options in
  while fuel (capped 10)
    (turn octokit (SearchIssuesAndPullRequests query "created" "desc") (fun data => data))
    start.

End GitHubClient.

(** ** Per-PR metrics of the pr command (pr-metrics.js) *)

Module PrMetrics.

Record Details := mkDetails {
  pr : PullRequest.t;
  issueComments : list Comment.t;
  reviewComments : list Comment.t;
  reviews : list Review.t;
  commits : list Commit.t;
}.

Record Metrics := mkMetrics {
  totalComments : nat;
  nIssueComments : nat;
  nReviewComments : nat;
  nReviews : nat;
  changesRequested : nat;
  approved : nat;
  uniqueReviewers : nat;
  uniqueParticipants : nat;
  nCommits : nat;
  conversationDensity : Q;
  additions : nat;
  deletions : nat;
  changedFiles : nat;
  timeToMergeInDays : option Q;
  timeToCloseInDays : option Q;
}.

Record t := mk {
  number : nat;
  title : string;
  state : string;
  merged : bool;
  author : string;
  createdAt : string;
  mergedAt : option string;
  closedAt : option string;
  url : string;
  metrics : Metrics;
}.

Section WithDate.

Variable Date : string → Z.

(** [at ? (new Date(at) - createdAt) / (1000 * 60 * 60 * 24) : null] *)
Definition daysUntil (created_at : string) (at_ : option string) : option Q :=
  if truthyStr at_
  then Some (inject_Z (Date (orStr at_ EmptyString) - Date created_at) / inject_Z MS_PER_DAY)%Q
  else None.

(** [time ? Number(time.toFixed(2)) : null] *)
Definition roundedDays (time : option Q) : option Q :=
  if JsNum.truthyOpt time
  then JsNum.toFixedNumber 2 <$> time
  else None.

Definition calculatePRMetrics (prData : Details) : t :=
  let pr := pr prData in
  let totalIssueComments := length (issueComments prData) in
  let totalReviewComments := length (reviewComments prData) in
  let totalComments := totalIssueComments + totalReviewComments in
  let uniqueReviewers : gset string :=
    list_to_set (Review.user_login <$> reviews prData) in
  let changesRequested :=
    length (List.filter (fun r => String.eqb (Review.state r) "CHANGES_REQUESTED")
              (reviews prData)) in
  let approved :=
    length (List.filter (fun r => String.eqb (Review.state r) "APPROVED")
              (reviews prData)) in
  let timeToMerge := daysUntil (PullRequest.created_at pr) (PullRequest.merged_at pr) in
  let timeToClose := daysUntil (PullRequest.created_at pr) (PullRequest.closed_at pr) in
  let commenters : gset string :=
    list_to_set ((Comment.user_login <$> issueComments prData) ++
                 (Comment.user_login <$> reviewComments prData)) in
  let allParticipants := commenters ∪ uniqueReviewers in
  let conversationDensity :=
    if (0 <? length (commits prData))%nat
    then JsNum.toFixedNumber 2 (JsNum.ratio totalComments (length (commits prData)))
    else 0%Q in
  {| number := PullRequest.number pr;
     title := PullRequest.title pr;
     state := PullRequest.state pr;
     merged := bool_decide (is_Some (PullRequest.merged_at pr));
     author := PullRequest.user_login pr;
     createdAt := PullRequest.created_at pr;
     mergedAt := PullRequest.merged_at pr;
     closedAt := PullRequest.closed_at pr;
     url := PullRequest.html_url pr;
     metrics :=
       {| totalComments := totalComments;
          nIssueComments := totalIssueComments;
          nReviewComments := totalReviewComments;
          nReviews := length (reviews prData);
          changesRequested := changesRequested;
          approved := approved;
          uniqueReviewers := size uniqueReviewers;
          uniqueParticipants := size allParticipants;
          nCommits := length (commits prData);
          conversationDensity := conversationDensity;
          additions := PullRequest.additions pr;
          deletions := PullRequest.deletions pr;
          changedFiles := PullRequest.changed_files pr;
          timeToMergeInDays := roundedDays timeToMerge;
          timeToCloseInDays := roundedDays timeToClose |} |}.

(** The loop variables of [prMetrics]: the records pushed so far and what
    was written to standard output. *)
Record Loop := mkLoop {
  prMetricsData : list t;
  stdout : list string;
}.

(** One turn of [for (const pr of prs)]: [fetched] is the outcome of
    [client.fetchPRDetails], [None] when the promise is rejected. *)
Definition processPR (st : Loop) (fetched : option Details) : Loop :=
  match fetched with
  | Some details =>
      let metrics := calculatePRMetrics details in
      {| prMetricsData := prMetricsData st ++ [metrics];
         stdout := stdout st ++ ["."] |}
  | None =>
      {| prMetricsData := prMetricsData st;
         stdout := stdout st ++ ["x"] |}
  end.

Definition processPRs (fetches : list (option Details)) : Loop :=
  fold_left processPR fetches {| prMetricsData := []; stdout := [] |}.

End WithDate.

End PrMetrics.

(** ** The per-PR loop of the summary and user commands
    (summary.js and user-stats.js, "Process PRs") *)

(** The record [prData]; [commitCount] is only set by user-stats. *)
Module PRData.
Record t := mk {
  number : nat;
  title : string;
  repo : string;
  state : string;
  merged : bool;
  comments : nat;
  changesRequested : nat;
  timeToMerge : option Q;
  createdAt : string;
  url : string;
  aiAssisted : bool;
  aiTools : list string;
  commitCount : option nat;
}.
End PRData.

(** The per-repository aggregate kept in [repoMap]. *)
Module RepoStats.
Record t := mk {
  repo : string;
  totalPRs : nat;
  mergedPRs : nat;
  totalComments : nat;
  changesRequested : nat;
  mergeTimesSum : Q;
  mergeTimesCount : nat;
}.

(** The aggregate that is stored when a repository is seen first. *)
Definition fresh (repoFullName : string) : t :=
  {| repo := repoFullName; totalPRs := 0; mergedPRs := 0; totalComments := 0;
     changesRequested := 0; mergeTimesSum := 0; mergeTimesCount := 0 |}.

(** [r.mergeTimesCount > 0 ? Number((r.mergeTimesSum / r.mergeTimesCount).toFixed(2)) : null] *)
Definition avgTimeToMerge (r : t) : option Q :=
  if (0 <? mergeTimesCount r)%nat
  then Some (JsNum.toFixedNumber 2 (mergeTimesSum r / inject_Z (Z.of_nat (mergeTimesCount r))))
  else None.
End RepoStats.

Module PrLoop.

(** What [Promise.all([listReviews, listComments, fetchPRCommits])] gives. *)
Inductive Outcome : Type :=
| Rejected
| Resolved (reviews : list Review.t) (comments : list Comment.t) (commits : list Commit.t).

Record State := mkState {
  prDetails : list PRData.t;
  repoMap : gmap string RepoStats.t;
  stdout : list string;
}.

Definition initial : State :=
  {| prDetails := []; repoMap := ∅; stdout := [] |}.

Section WithDate.

Variable Date : string → Z.

(** With [userStats] set the record also gets [commitCount]. *)
Variable userStats : bool.

Definition repoFullName (pr : SearchItem.t) : string :=
  let urlParts := JsStr.split "/"%char (SearchItem.repository_url pr) in
  let owner := JsStr.fromEnd urlParts 2 in
  let repo := JsStr.fromEnd urlParts 1 in
  owner +:+ "/" +:+ repo.

(** The time to merge of the record, [null] when [merged_at] is falsy. *)
Definition timeToMerge (pr : SearchItem.t) : option Q :=
  if truthyStr (SearchItem.merged_at pr)
  then
    let created := Date (SearchItem.created_at pr) in
    let merged := Date (orStr (SearchItem.merged_at pr) EmptyString) in
    Some (JsNum.toFixedNumber 2 (inject_Z (merged - created) / inject_Z MS_PER_DAY))
  else None.

Definition record (pr : SearchItem.t) (reviews : list Review.t)
    (comments : list Comment.t) (commits : list Commit.t) : PRData.t :=
  let changesRequested :=
    length (List.filter (fun r => String.eqb (Review.state r) "CHANGES_REQUESTED") reviews) in
  let totalComments := length comments + default 0 (SearchItem.comments pr) in
  let '(aiAssisted, aiToolsUsed) := AiDetection.scanCommits (Commit.message <$> commits) in
  {| PRData.number := SearchItem.number pr;
     PRData.title := SearchItem.title pr;
     PRData.repo := repoFullName pr;
     PRData.state := SearchItem.state pr;
     PRData.merged := truthyStr (SearchItem.merged_at pr);
     PRData.comments := totalComments;
     PRData.changesRequested := changesRequested;
     PRData.timeToMerge := timeToMerge pr;
     PRData.createdAt := SearchItem.created_at pr;
     PRData.url := SearchItem.html_url pr;
     PRData.aiAssisted := aiAssisted;
     PRData.aiTools := aiToolsUsed;
     PRData.commitCount := if userStats then Some (length commits) else None |}.

(** The update of the aggregate of the repository of [prData]. *)
Definition bump (prData : PRData.t) (repoStats : RepoStats.t) : RepoStats.t :=
  let counted := JsNum.truthyOpt (PRData.timeToMerge prData) in
  {| RepoStats.repo := RepoStats.repo repoStats;
     RepoStats.totalPRs := S (RepoStats.totalPRs repoStats);
     RepoStats.mergedPRs :=
       if PRData.merged prData then S (RepoStats.mergedPRs repoStats)
       else RepoStats.mergedPRs repoStats;
     RepoStats.totalComments := RepoStats.totalComments repoStats + PRData.comments prData;
     RepoStats.changesRequested :=
       RepoStats.changesRequested repoStats + PRData.changesRequested prData;
     RepoStats.mergeTimesSum :=
       if counted
       then (RepoStats.mergeTimesSum repoStats + default 0 (PRData.timeToMerge prData))%Q
       else RepoStats.mergeTimesSum repoStats;
     RepoStats.mergeTimesCount :=
       if counted then S (RepoStats.mergeTimesCount repoStats)
       else RepoStats.mergeTimesCount repoStats |}.

(** "Repo aggregation": the entry is created when missing, then updated in
    place. *)
Definition aggregate (prData : PRData.t) (repoMap : gmap string RepoStats.t)
    : gmap string RepoStats.t :=
  let name := PRData.repo prData in
  let repoMap :=
    if bool_decide (is_Some (repoMap !! name)) then repoMap
    else <[name := RepoStats.fresh name]> repoMap in
  match repoMap !! name with
  | Some repoStats => <[name := bump prData repoStats]> repoMap
  | None => repoMap
  end.

(** One turn of [for (const pr of prs)] with its [try] and [catch]. *)
Definition processPR (st : State) (turn : SearchItem.t * Outcome) : State :=
  let '(pr, outcome) := turn in
  match outcome with
  | Resolved reviews comments commits =>
      let prData := record pr reviews comments commits in
      {| prDetails := prDetails st ++ [prData];
         repoMap := aggregate prData (repoMap st);
         stdout := stdout st ++ ["."] |}
  | Rejected =>
      {| prDetails := prDetails st;
         repoMap := repoMap st;
         stdout := stdout st ++ ["x"] |}
  end.

Definition processPRs (turns : list (SearchItem.t * Outcome)) : State :=
  fold_left processPR turns initial.

End WithDate.

End PrLoop.

(** ** Summary statistics (summary.js and user-stats.js, "Calculate summaries") *)

Module Summary.

(** [prDetails.filter(pr => pr.merged)] *)
Definition mergedPRs (prDetails : list PRData.t) : list PRData.t :=
  List.filter (fun pr => PRData.merged pr) prDetails.

(** [prDetails.filter(pr => pr.state === 'open')] *)
Definition openPRs (prDetails : list PRData.t) : list PRData.t :=
  List.filter (fun pr => String.eqb (PRData.state pr) "open") prDetails.

(** [prDetails.filter(pr => pr.state === 'closed' && !pr.merged)] *)
Definition closedPRs (prDetails : list PRData.t) : list PRData.t :=
  List.filter (fun pr => String.eqb (PRData.state pr) "closed" && negb (PRData.merged pr))
    prDetails.

(** [prDetails.reduce((sum, pr) => sum + pr.comments, 0)] *)
Definition totalComments (prDetails : list PRData.t) : nat :=
  fold_left (fun sum pr => sum + PRData.comments pr) prDetails 0.

(** [prDetails.reduce((sum, pr) => sum + pr.changesRequested, 0)] *)
Definition totalChangesRequested (prDetails : list PRData.t) : nat :=
  fold_left (fun sum pr => sum + PRData.changesRequested pr) prDetails 0.

(** [n > 0 ? Number((total / n).toFixed(2)) : 0] *)
Definition average (total n : nat) : Q :=
  if (0 <? n)%nat then JsNum.toFixedNumber 2 (JsNum.ratio total n) else 0%Q.

(** The changes-requested histogram of the second summary command:
    [dist[changes] = (dist[changes] || 0) + 1] for each record. *)
Definition changesRequestedDistribution (prDetails : list PRData.t) : gmap nat nat :=
  fold_left
    (fun dist pr =>
       let changes := PRData.changesRequested pr in
       <[changes := JsNum.orCount (default 0 (dist !! changes)) 0 + 1]> dist)
    prDetails ∅.

(** [result.summary], the fields that the properties below speak about. *)
Record t := mk {
  totalPRs : nat;
  nMergedPRs : nat;
  nOpenPRs : nat;
  nClosedPRs : nat;
  sumComments : nat;
  avgCommentsPerPR : Q;
  sumChangesRequested : nat;
  avgChangesRequestedPerPR : Q;
  distribution : gmap nat nat;
}.

Definition summary (prDetails : list PRData.t) : t :=
  {| totalPRs := length prDetails;
     nMergedPRs := length (mergedPRs prDetails);
     nOpenPRs := length (openPRs prDetails);
     nClosedPRs := length (closedPRs prDetails);
     sumComments := totalComments prDetails;
     avgCommentsPerPR := average (totalComments prDetails) (length prDetails);
     sumChangesRequested := totalChangesRequested prDetails;
     avgChangesRequestedPerPR := average (totalChangesRequested prDetails) (length prDetails);
     distribution := changesRequestedDistribution prDetails |}.

(** The "Code Quality" lines of [formatSummaryTable] and [exportToCSV]:
    [dist['0'] || 0] and [((cleanPRs / totalPRs) * 100).toFixed(1)] with
    [totalPRs = data.summary.totalPRs || 1]. *)
Definition cleanPRs (s : t) : nat := JsNum.orCount (default 0 (distribution s !! 0)) 0.

Definition cleanPct (s : t) : string :=
  let totalPRs := JsNum.orCount (totalPRs s) 1 in
  JsStr.toFixed 1 (JsNum.ratio (cleanPRs s) totalPRs * 100)%Q.

End Summary.

(** ** CSV output (the two [exportToCSV] of the summary command and
    [formatPRMetricsCSV] of formatters.js) *)

Module Csv.

Import JsStr.

(** A cell between double quotes, as the template literals write it. *)
Definition quoted (cell : string) : string :=
  String dquote (cell +:+ String dquote EmptyString).

(** [String(n)] for a number that went through [toFixed(2)]. *)
Definition showNumber (x : Q) : string := showHundredths (Qfloor (x * 100)).

(** [x || ''] on a nullable number, then [String(...)]. *)
Definition numberOrEmpty (x : option Q) : string :=
  if JsNum.truthyOpt x then showNumber (default 0%Q x) else EmptyString.

Definition yesNo (b : bool) : string := if b then "Yes" else "No".

(** The cells of the row of a pull request and of a repository in both
    exports; [title] is what is done to the title before. *)
Definition prCells (title : string → string) (pr : PRData.t) : list string :=
  [ pretty (PRData.number pr); PRData.repo pr; title (PRData.title pr); PRData.state pr;
    yesNo (PRData.merged pr); pretty (PRData.comments pr);
    pretty (PRData.changesRequested pr); numberOrEmpty (PRData.timeToMerge pr);
    yesNo (PRData.aiAssisted pr); join "; " (PRData.aiTools pr);
    PRData.createdAt pr; PRData.url pr ].

Definition repoCells (r : RepoStats.t) : list string :=
  [ RepoStats.repo r; pretty (RepoStats.totalPRs r); pretty (RepoStats.mergedPRs r);
    pretty (RepoStats.totalComments r); pretty (RepoStats.changesRequested r);
    numberOrEmpty (RepoStats.avgTimeToMerge r) ].

Definition userCells (user : string) : list string := ["User"; user; EmptyString].

(** The single-file export: [toRow] quotes and escapes every cell. *)
Module SingleFile.

Definition toRow (cells : list string) : string :=
  join "," ((fun cell => quoted (doubleQuotes cell)) <$> cells).

Definition prRow (pr : PRData.t) : string := toRow (prCells (fun title => title) pr).
Definition repoRow (r : RepoStats.t) : string := toRow (repoCells r).
Definition userRow (user : string) : string := toRow (userCells user).

End SingleFile.

(** The multi-file export: every cell is put between quotes as it is; only
    the titles had their quotes doubled before. *)
Module MultiFile.

Definition line (row : list string) : string := join "," (quoted <$> row).

Definition prRow (pr : PRData.t) : string := line (prCells doubleQuotes pr).
Definition repoRow (r : RepoStats.t) : string := line (repoCells r).
Definition userRow (user : string) : string := line (userCells user).

End MultiFile.

(** [formatPRMetricsCSV]: the title is quoted and escaped, the other cells
    are joined as they are. *)
Definition showBool (b : bool) : string := if b then "true" else "false".

Definition prMetricsRow (pr : PrMetrics.t) : string :=
  let m := PrMetrics.metrics pr in
  join ","
    [ pretty (PrMetrics.number pr); quoted (doubleQuotes (PrMetrics.title pr));
      PrMetrics.state pr; showBool (PrMetrics.merged pr);
      pretty (PrMetrics.totalComments m); pretty (PrMetrics.nIssueComments m);
      pretty (PrMetrics.nReviewComments m); pretty (PrMetrics.nReviews m);
      pretty (PrMetrics.changesRequested m); pretty (PrMetrics.approved m);
      pretty (PrMetrics.uniqueReviewers m); pretty (PrMetrics.uniqueParticipants m);
      pretty (PrMetrics.nCommits m); pretty (PrMetrics.additions m);
      pretty (PrMetrics.deletions m); pretty (PrMetrics.changedFiles m);
      numberOrEmpty (PrMetrics.timeToMergeInDays m); PrMetrics.createdAt pr ].

(** *** Reading a CSV record back

    A record is a list of fields separated by commas.  A field is either
    bare (no quote, comma or line break) or between double quotes, where a
    double quote of the value is written twice.  [parse] gives the values
    of the fields, or [None] when the text is not a record. *)

Inductive Mode : Type :=
| FieldStart       (* nothing of the field read yet *)
| Bare             (* inside a bare field *)
| Quoted           (* inside a quoted field *)
| QuoteSeen.       (* inside a quoted field, just after a double quote *)

Definition isLineBreak (a : ascii) : bool :=
  let n := nat_of_ascii a in ((n =? 10) || (n =? 13))%nat.

Definition snoc (s : string) (a : ascii) : string := s +:+ String a EmptyString.

Fixpoint parseFrom (mode : Mode) (field : string) (s : string) : option (list string) :=
  match s with
  | EmptyString =>
      match mode with
      | Quoted => None
      | _ => Some [field]
      end
  | String a s' =>
      match mode with
      | FieldStart =>
          if Ascii.eqb a dquote then parseFrom Quoted EmptyString s'
          else if Ascii.eqb a ","%char then cons EmptyString <$> parseFrom FieldStart EmptyString s'
          else if isLineBreak a then None
          else parseFrom Bare (String a EmptyString) s'
      | Bare =>
          if Ascii.eqb a dquote then None
          else if Ascii.eqb a ","%char then cons field <$> parseFrom FieldStart EmptyString s'
          else if isLineBreak a then None
          else parseFrom Bare (snoc field a) s'
      | Quoted =>
          if Ascii.eqb a dquote then parseFrom QuoteSeen field s'
          else parseFrom Quoted (snoc field a) s'
      | QuoteSeen =>
          if Ascii.eqb a dquote then parseFrom Quoted (snoc field a) s'
          else if Ascii.eqb a ","%char then cons field <$> parseFrom FieldStart EmptyString s'
          else None
      end
  end.

Definition parse (s : string) : option (list string) := parseFrom FieldStart EmptyString s.

(** A written row is well formed when it reads back as the cells it was
    written from. *)
Definition wellFormed (cells : list string) (row : string) : Prop :=
  parse row = Some cells.

End Csv.

(** ** The command handlers and the credential (pr-metrics.js, user-stats.js,
    repo-stats.js, summary.js) *)

Module Cli.

(** What a command does to the outside. *)
Inductive Event : Type :=
| ApiRequest (r : GitHubClient.Request)
| PrintInfo (message : string)
| PrintError (message : string)
| Output (text : string)
| Exit (code : nat).

Definition isApiRequest (e : Event) : bool :=
  match e with
  | ApiRequest _ => true
  | _ => false
  end.

(** [--token] and the environment. *)
Record Credentials := mkCredentials {
  optionsToken : option string;
  GITHUB_TOKEN : option string;
}.

(** [options.token || process.env.GITHUB_TOKEN] *)
Definition token (c : Credentials) : option string :=
  if truthyStr (optionsToken c) then optionsToken c else GITHUB_TOKEN c.

(** The shape shared by the handlers:
    [try { const client = new GitHubClient(token); rest }
     catch (error) { printError(error.message); process.exit(1); }].
    [rest] stands for the statements after the construction; every remote
    call in them goes through [client]. *)
Definition handler (rest : GitHubClient.t → list Event) (c : Credentials) : list Event :=
  match GitHubClient.new (token c) with
  | inl message => [PrintError message; Exit 1]
  | inr client => rest client
  end.

Section Handlers.

(** The statements of each handler after [new GitHubClient(token)]. *)
Variables prMetricsRest userStatsRest repoStatsRest summaryRest : GitHubClient.t → list Event.

Definition prMetrics : Credentials → list Event := handler prMetricsRest.
Definition userStats : Credentials → list Event := handler userStatsRest.
Definition repoStats : Credentials → list Event := handler repoStatsRest.
Definition summary : Credentials → list Event := handler summaryRest.

End Handlers.

End Cli.

(** ** Vocabulary of the statements *)

(** A record is counted once by the three filters of the summary when its
    state is ['open'] or ['closed'] and a merged record is not open. *)
Definition countedOnce (pr : PRData.t) : Prop :=
  (PRData.state pr = "open" ∨ PRData.state pr = "closed") ∧
  (PRData.merged pr = true → PRData.state pr = "closed").

(** Two code units, and two messages, that differ at most in the case of
    letters. *)
Definition sameLetter (a b : ascii) : Prop :=
  Regex.canonicalize a = Regex.canonicalize b.

Inductive caseVariant : string → string → Prop :=
| caseVariant_nil : caseVariant EmptyString EmptyString
| caseVariant_cons a b s t :
    sameLetter a b → caseVariant s t → caseVariant (String a s) (String b t).

(** A commit message matches a known trailer or tag. *)
Definition matchesKnownPattern (message : string) : Prop :=
  ∃ p, p ∈ AiDetection.aiPatterns ∧ Regex.test p.1 message = true.

(** The remote end honours [per_page]. *)
Definition honoursPerPage {A : Type} (octokit : GitHubClient.Request → list A) : Prop :=
  ∀ r, (length (octokit r) ≤ GitHubClient.per_page r)%nat.

(** The request for page [p] of an endpoint, as every loop builds it. *)
Definition pageRequest (e : GitHubClient.Endpoint) (p : nat) : GitHubClient.Request :=
  {| GitHubClient.endpoint := e; GitHubClient.per_page := 100; GitHubClient.page := p |}.

(** Page [p] comes back with exactly 100 items. *)
Definition fullPage {A : Type} (octokit : GitHubClient.Request → list A)
    (e : GitHubClient.Endpoint) (p : nat) : Prop :=
  length (octokit (pageRequest e p)) = 100%nat.

(** The loop ended after requesting the pages [1 .. k] in order: these are
    its requests, its items are what was kept of these pages, and every
    page before the last one was full. *)
Definition pagedResult {A : Type} (octokit : GitHubClient.Request → list A)
    (e : GitHubClient.Endpoint) (keep : list A → list A) (k : nat)
    (st : GitHubClient.Paging A) : Prop :=
  GitHubClient.requests st = pageRequest e <$> seq 1 k ∧
  GitHubClient.items st
    = concat ((fun p => keep (octokit (pageRequest e p))) <$> seq 1 k) ∧
  (∀ p, (1 ≤ p < k)%nat → fullPage octokit e p).

(** A fetch with a page cap: with more fuel than the cap the loop ends,
    after at most [cap] pages, on the first page that is not full when it
    ends before the cap; and it returns at most [100 * cap] items from a
    remote end that honours [per_page]. *)
Definition cappedFetch {A : Type} (cap : nat) (octokit : GitHubClient.Request → list A)
    (run : nat → option (GitHubClient.Paging A)) : Prop :=
  ∀ fuel, (cap < fuel)%nat →
  ∃ e k st,
    run fuel = Some st ∧ (1 ≤ k ≤ cap)%nat ∧
    pagedResult octokit e (fun data => data) k st ∧
    ((k < cap)%nat → ¬ fullPage octokit e k) ∧
    (honoursPerPage octokit → (length (GitHubClient.items st) ≤ 100 * cap)%nat).

(** A fetch without a page cap: it ends on the first page that is not full,
    whatever its number, with enough fuel to get there; and it does not
    end when every page is full. *)
Definition uncappedFetch {A : Type} (octokit : GitHubClient.Request → list A)
    (run : nat → option (GitHubClient.Paging A)) : Prop :=
  ∃ e keep,
    (∀ k, (∀ p, (1 ≤ p ≤ k)%nat → fullPage octokit e p) →
          ¬ fullPage octokit e (S k) →
          ∀ fuel, (S k < fuel)%nat →
          ∃ st, run fuel = Some st ∧ pagedResult octokit e keep (S k) st) ∧
    ((∀ p, (1 ≤ p)%nat → fullPage octokit e p) → ∀ fuel, run fuel = None).

(** A value without a double quote. *)
Fixpoint hasQuote (s : string) : bool :=
  match s with
  | EmptyString => false
  | String a s' => Ascii.eqb a JsStr.dquote || hasQuote s'
  end.

Definition quoteFree (s : string) : Prop := hasQuote s = false.


(** The progress marker of a turn of the per-PR loops. *)
Definition marker (outcome : PrLoop.Outcome) : string :=
  match outcome with
  | PrLoop.Rejected => "x"
  | PrLoop.Resolved _ _ _ => "."
  end.

Definition metricsMarker (fetched : option PrMetrics.Details) : string :=
  match fetched with
  | None => "x"
  | Some _ => "."
  end.

(** ** Sample data for the instances below *)

Module Sample.

(** A clock for the three timestamps of the samples. *)
Definition Date (s : string) : Z :=
  if String.eqb s "2024-01-01T00:00:00Z" then 1704067200000
  else if String.eqb s "2024-01-01T00:05:00Z" then 1704067500000
  else if String.eqb s "2024-01-03T12:00:00Z" then 1704283200000
  else 0.

Definition item (number : nat) (state : string) (merged_at : option string) : SearchItem.t :=
  {| SearchItem.number := number;
     SearchItem.title := "Add parser";
     SearchItem.repository_url := "https://api.github.com/repos/adobe/helix";
     SearchItem.state := state;
     SearchItem.comments := Some 2;
     SearchItem.pull_request := Some merged_at;
     SearchItem.created_at := "2024-01-01T00:00:00Z";
     SearchItem.closed_at := merged_at;
     SearchItem.html_url := "https://github.com/adobe/helix/pull/1" |}.

Definition mergedItem : SearchItem.t := item 1 "closed" (Some "2024-01-03T12:00:00Z").
Definition openItem : SearchItem.t := item 2 "open" None.
Definition closedItem : SearchItem.t :=
  {| SearchItem.number := 3;
     SearchItem.title := "Drop parser";
     SearchItem.repository_url := "https://api.github.com/repos/adobe/helix";
     SearchItem.state := "closed";
     SearchItem.comments := None;
     SearchItem.pull_request := Some None;
     SearchItem.created_at := "2024-01-01T00:00:00Z";
     SearchItem.closed_at := Some "2024-01-03T12:00:00Z";
     SearchItem.html_url := "https://github.com/adobe/helix/pull/3" |}.

(** A search item that is open and carries a merge time. *)
Definition openMergedItem : SearchItem.t := item 4 "open" (Some "2024-01-03T12:00:00Z").

(** A pull request merged five minutes after its creation. *)
Definition quickItem : SearchItem.t := item 5 "closed" (Some "2024-01-01T00:05:00Z").

Definition review (state : string) : Review.t :=
  {| Review.user_login := "alice"; Review.state := state |}.

Definition commit (message : string) : Commit.t := {| Commit.message := message |}.

Definition resolved : PrLoop.Outcome :=
  PrLoop.Resolved [review "CHANGES_REQUESTED"; review "APPROVED"]
    [{| Comment.user_login := "alice" |}]
    [commit "Fix the parser"].

(** The records of a run over a merged, an open and a closed pull request. *)
Definition threeRecords : list PRData.t :=
  PrLoop.prDetails
    (PrLoop.processPRs Date false
       [(mergedItem, resolved); (openItem, resolved); (closedItem, resolved)]).

(** The answer of [pulls.get] with the given timestamps, and the details
    fetched with it. *)
Definition pull (created_at : string) (merged_at closed_at : option string) : PullRequest.t :=
  {| PullRequest.number := 1;
     PullRequest.title := "Add parser";
     PullRequest.state := "closed";
     PullRequest.user_login := "bob";
     PullRequest.created_at := created_at;
     PullRequest.merged_at := merged_at;
     PullRequest.closed_at := closed_at;
     PullRequest.html_url := "https://github.com/adobe/helix/pull/1";
     PullRequest.additions := 10;
     PullRequest.deletions := 2;
     PullRequest.changed_files := 1 |}.

Definition details (pr : PullRequest.t) : PrMetrics.Details :=
  {| PrMetrics.pr := pr;
     PrMetrics.issueComments := [{| Comment.user_login := "alice" |}];
     PrMetrics.reviewComments := [{| Comment.user_login := "carol" |}];
     PrMetrics.reviews := [review "CHANGES_REQUESTED"; review "APPROVED"];
     PrMetrics.commits := [commit "Fix the parser"] |}.

Definition listed (number : nat) : ListedPR.t :=
  {| ListedPR.number := number; ListedPR.user_login := "bob";
     ListedPR.created_at := "2024-01-01T00:00:00Z" |}.

Definition noOptions : GitHubClient.Options :=
  {| GitHubClient.since := None; GitHubClient.until := None; GitHubClient.state := None;
     GitHubClient.org := None; GitHubClient.repo := None |}.

(** A remote end with [full] full pages followed by a page of [rest]
    items; it never sends more than [per_page] items. *)
Definition remote {A : Type} (x : A) (full rest : nat) (r : GitHubClient.Request) : list A :=
  repeat x (Nat.min (GitHubClient.per_page r)
              (if (GitHubClient.page r <=? full)%nat then 100 else rest)).

(** A user name with a double quote in the middle. *)
Definition quotedUser : string := "a" +:+ String JsStr.dquote "b".

End Sample.

(** ** Vocabulary of the further properties *)

(** The records of one repository. *)
Definition repoRecords (name : string) (prDetails : list PRData.t) : list PRData.t :=
  List.filter (fun pr => String.eqb (PRData.repo pr) name) prDetails.

(** The entry of [repoMap] for a repository sums up the records of that
    repository: there is none when the repository has no record. *)
Definition aggregateOf (name : string) (prDetails : list PRData.t)
    (entry : option RepoStats.t) : Prop :=
  let mine := repoRecords name prDetails in
  match entry with
  | None => mine = []
  | Some r =>
      mine ≠ [] ∧
      RepoStats.repo r = name ∧
      RepoStats.totalPRs r = length mine ∧
      RepoStats.mergedPRs r = length (List.filter PRData.merged mine) ∧
      RepoStats.totalComments r = sum_list (PRData.comments <$> mine) ∧
      RepoStats.changesRequested r = sum_list (PRData.changesRequested <$> mine) ∧
      RepoStats.mergeTimesCount r
        = length (List.filter (fun pr => JsNum.truthyOpt (PRData.timeToMerge pr)) mine)
  end.

(** The turns whose detail fetch failed. *)
Definition rejected (turns : list (SearchItem.t * PrLoop.Outcome)) :
    list (SearchItem.t * PrLoop.Outcome) :=
  List.filter (fun turn => match turn.2 with PrLoop.Rejected => true | _ => false end) turns.

(** The "Code Quality" buckets of [formatSummaryTable] and [exportToCSV],
    beside [Summary.cleanPRs], and the issue counts and merge times of the
    summary.  [Object.entries(dist)] is [map_to_list]: the sum of the
    filtered counts does not depend on the order of the entries. *)
Module Buckets.

(** [dist['1'] || 0] *)
Definition minorRevisions (s : Summary.t) : nat :=
  JsNum.orCount (default 0 (Summary.distribution s !! 1)) 0.

(** [Object.entries(dist).filter(([k]) => parseInt(k) >= 2)
      .reduce((sum, [, v]) => sum + v, 0)] *)
Definition multipleRevisions (s : Summary.t) : nat :=
  fold_left (fun sum entry => sum + entry.2)
    (List.filter (fun entry => (2 <=? entry.1)%nat) (map_to_list (Summary.distribution s)))
    0.

(** [issues.filter(i => i.state === 'open')] and
    [issues.filter(i => i.state === 'closed')] *)
Definition openIssues (issues : list SearchItem.t) : list SearchItem.t :=
  List.filter (fun i => String.eqb (SearchItem.state i) "open") issues.

Definition closedIssues (issues : list SearchItem.t) : list SearchItem.t :=
  List.filter (fun i => String.eqb (SearchItem.state i) "closed") issues.

(** [mergedPRs.map(pr => pr.timeToMerge).filter(t => t !== null)] *)
Definition mergeTimes (prDetails : list PRData.t) : list Q :=
  omap PRData.timeToMerge (Summary.mergedPRs prDetails).

End Buckets.

(** The number of records with [k] requested changes, and with a number of
    requested changes that satisfies [p]. *)
Definition withChanges (p : nat → bool) (prDetails : list PRData.t) : nat :=
  length (List.filter (fun pr => p (PRData.changesRequested pr)) prDetails).

(** The histogram after some records: no entry for a count that did not
    occur, and the number of occurrences otherwise. *)
Definition histogramOf (seen : list PRData.t) (dist : gmap nat nat) : Prop :=
  ∀ k, dist !! k =
         if decide (withChanges (Nat.eqb k) seen = 0) then None
         else Some (withChanges (Nat.eqb k) seen).

(** The sum of the entries whose key satisfies [p]. *)
Definition sumWhere (p : nat → bool) (dist : gmap nat nat) : nat :=
  sum_list_with (fun entry : nat * nat => if p entry.1 then entry.2 else 0)
    (map_to_list dist).

(** The tool names that [aiPatterns] can report. *)
Definition knownTools : list string :=
  ["Claude"; "GitHub Copilot"; "OpenAI"; "ChatGPT"; "Cursor"; "AI (tagged)"].

(** A string without the character [c]. *)
Fixpoint without (c : ascii) (s : string) : Prop :=
  match s with
  | EmptyString => True
  | String a s' => a ≠ c ∧ without c s'
  end.

(** A listed pull request passes the client-side date filters. *)
Definition inDateRange (Date : string → Z) (options : GitHubClient.Options)
    (pr : ListedPR.t) : Prop :=
  (truthyStr (GitHubClient.since options) = true →
   (Date (orStr (GitHubClient.since options) EmptyString) ≤ Date (ListedPR.created_at pr))%Z) ∧
  (truthyStr (GitHubClient.until options) = true →
   (Date (ListedPR.created_at pr) ≤ Date (orStr (GitHubClient.until options) EmptyString))%Z).

(** An item was delivered in answer to one of the requests of the loop. *)
Definition served {A : Type} (octokit : GitHubClient.Request → list A)
    (st : GitHubClient.Paging A) (x : A) : Prop :=
  ∃ request, request ∈ GitHubClient.requests st ∧ x ∈ octokit request.

(** * Properties *)

(** ** Rounding with [toFixed] *)

Section NumberFacts.

Local Open Scope Q_scope.
Import JsNum.



Lemma truthy_false (x : Q) : truthy x = false ↔ x == 0.
Proof. unfold truthy, Qeq. cbn. rewrite negb_false_iff, Z.eqb_eq. lia. Qed.

Lemma truthy_true (x : Q) : truthy x = true ↔ ¬ x == 0.
Proof. rewrite <- truthy_false. destruct (truthy x); split; congruence. Qed.

(** The rounded magnitude is within one half of the scaled magnitude. *)
Lemma fixedMagnitude_bounds (x : Q) :
  Qabs x * 100 - (1 # 2) < inject_Z (fixedMagnitude 2 x) ∧
  inject_Z (fixedMagnitude 2 x) <= Qabs x * 100 + (1 # 2).
Proof.
  unfold fixedMagnitude. change (inject_Z (10 ^ Z.of_nat 2)) with (inject_Z 100).
  set (m := Qabs x * inject_Z 100 + (1 # 2)).
  pose proof (Qfloor_le m) as Hle. pose proof (Qlt_floor m) as Hlt.
  rewrite inject_Z_plus in Hlt.
  change (inject_Z 1) with 1 in Hlt.
  change (inject_Z 100) with 100 in *.
  subst m. split; lra.
Qed.

Lemma toFixedNumber_units (x : Q) :
  toFixedNumber 2 x == inject_Z (fixedUnits 2 x) * (1 # 100).
Proof. reflexivity. Qed.



Lemma fixedMagnitude_nonneg (x : Q) : (0 <= fixedMagnitude 2 x)%Z.
Proof.
  destruct (fixedMagnitude_bounds x) as [Hlo _].
  pose proof (Qabs_nonneg x) as Habs.
  assert (H : inject_Z (-1) < inject_Z (fixedMagnitude 2 x)).
  { change (inject_Z (-1)) with (-1). lra. }
  rewrite <- Zlt_Qlt in H. lia.
Qed.


(** It is zero exactly for the numbers closer to zero than half a hundredth. *)
Lemma toFixedNumber_zero (x : Q) : toFixedNumber 2 x == 0 ↔ Qabs x < 1 # 200.
Proof.
  rewrite toFixedNumber_units.
  destruct (fixedMagnitude_bounds x) as [Hlo Hhi].
  pose proof (fixedMagnitude_nonneg x) as Hm.
  assert (Hz : inject_Z (fixedUnits 2 x) * (1 # 100) == 0 ↔ fixedMagnitude 2 x = 0%Z).
  { unfold fixedUnits. destruct (isNegative x).
    - rewrite inject_Z_opp. split; intros H.
      + assert (H' : inject_Z (fixedMagnitude 2 x) == inject_Z 0).
        { change (inject_Z 0) with 0. lra. }
        by apply (proj1 (inject_Z_injective _ _)) in H'.
      + rewrite H. reflexivity.
    - split; intros H.
      + assert (H' : inject_Z (fixedMagnitude 2 x) == inject_Z 0).
        { change (inject_Z 0) with 0. lra. }
        by apply (proj1 (inject_Z_injective _ _)) in H'.
      + rewrite H. reflexivity. }
  rewrite Hz. split; intros H.
  - rewrite H in Hlo. change (inject_Z 0) with 0 in Hlo. lra.
  - assert (H1 : inject_Z (fixedMagnitude 2 x) < inject_Z 1).
    { change (inject_Z 1) with 1. lra. }
    rewrite <- Zlt_Qlt in H1. lia.
Qed.

End NumberFacts.

(** ** The counts of the summary (C1) *)

Section SummaryCounts.

Local Open Scope nat_scope.

Lemma counts_cons (pr : PRData.t) (l : list PRData.t) :
  countedOnce pr →
  length (Summary.mergedPRs (pr :: l)) + length (Summary.openPRs (pr :: l))
    + length (Summary.closedPRs (pr :: l))
  = S (length (Summary.mergedPRs l) + length (Summary.openPRs l)
       + length (Summary.closedPRs l)).
Proof.
  intros [Hst Hm]. unfold Summary.mergedPRs, Summary.openPRs, Summary.closedPRs.
  simpl. destruct (PRData.merged pr) eqn:Em.
  - rewrite (Hm eq_refl). simpl. lia.
  - destruct Hst as [-> | ->]; simpl; lia.
Qed.

(** C1, as stated, fails: the record that the loop builds from a search
    item with state ['open'] and a merge time is counted as merged and as
    open, so the three counts add up to 2 for 1 record. *)
Lemma summary_counts_open_merged :
  let prDetails :=
    PrLoop.prDetails
      (PrLoop.processPRs Sample.Date false [(Sample.openMergedItem, Sample.resolved)]) in
  let s := Summary.summary prDetails in
  Summary.totalPRs s = 1 ∧
  Summary.nMergedPRs s + Summary.nOpenPRs s + Summary.nClosedPRs s = 2.
Proof. vm_compute. done. Qed.

(** C1 (amended): for every list of records in which each record has state
    ['open'] or ['closed'] and no merged record is open,
    [mergedPRs + openPRs + closedPRs = totalPRs]. *)
Theorem summary_counts_partition (prDetails : list PRData.t) :
  Forall countedOnce prDetails →
  let s := Summary.summary prDetails in
  Summary.nMergedPRs s + Summary.nOpenPRs s + Summary.nClosedPRs s = Summary.totalPRs s.
Proof.
  intros Hall. cbn. induction Hall as [|pr l Hpr _ IH]; [done|].
  rewrite counts_cons by done. rewrite IH. done.
Qed.

Lemma summary_counts_partition_witness :
  Forall countedOnce Sample.threeRecords ∧
  let s := Summary.summary Sample.threeRecords in
  Summary.nMergedPRs s + Summary.nOpenPRs s + Summary.nClosedPRs s = Summary.totalPRs s.
Proof.
  assert (H : Forall countedOnce Sample.threeRecords).
  { repeat constructor; try (intros; reflexivity); try (by left); try (by right);
      cbn; discriminate. }
  split; [exact H | exact (summary_counts_partition Sample.threeRecords H)].
Defined.

End SummaryCounts.

(** ** The average number of comments (C6) *)

Section Averages.

Lemma fold_left_sum {A : Type} (f : A → nat) (l : list A) (acc : nat) :
  fold_left (fun sum x => sum + f x) l acc = acc + sum_list (f <$> l).
Proof.
  revert acc. induction l as [|x l IH]; intros acc; csimpl; [lia|].
  rewrite IH. lia.
Qed.



End Averages.

(** ** Time to merge and time to close of the pr command (C2) *)

Section TimeToMerge.

Import PrMetrics.

Variable Date : string → Z.

Lemma truthyStr_Some (o : option string) (s : string) :
  o = Some s → s ≠ EmptyString → truthyStr o = true ∧ orStr o EmptyString = s.
Proof. intros -> Hs. by destruct s. Qed.



(** The value of [roundedDays (daysUntil created_at at_)] in each case. *)
Lemma roundedDays_absent (created_at : string) :
  roundedDays (daysUntil Date created_at None) = None.
Proof. reflexivity. Qed.



End TimeToMerge.




(** ** The per-PR loops: a failed fetch is skipped (C5) *)

Section SkippedItems.

Variable Date : string → Z.
Variable userStats : bool.

Local Open Scope list_scope.

Abbreviation processPR := (PrLoop.processPR Date userStats).
Abbreviation processPRs := (PrLoop.processPRs Date userStats).

(** The turn of a failed fetch writes the marker and touches nothing else. *)
Lemma processPR_rejected (st : PrLoop.State) (pr : SearchItem.t) :
  processPR st (pr, PrLoop.Rejected) =
    {| PrLoop.prDetails := PrLoop.prDetails st;
       PrLoop.repoMap := PrLoop.repoMap st;
       PrLoop.stdout := PrLoop.stdout st ++ ["x"] |}.
Proof. reflexivity. Qed.

(** The records and the aggregates after the remaining turns do not depend
    on what has been written. *)
Lemma fold_processPR_data (turns : list (SearchItem.t * PrLoop.Outcome))
    (st1 st2 : PrLoop.State) :
  PrLoop.prDetails st1 = PrLoop.prDetails st2 →
  PrLoop.repoMap st1 = PrLoop.repoMap st2 →
  PrLoop.prDetails (fold_left processPR turns st1)
    = PrLoop.prDetails (fold_left processPR turns st2) ∧
  PrLoop.repoMap (fold_left processPR turns st1)
    = PrLoop.repoMap (fold_left processPR turns st2).
Proof.
  revert st1 st2. induction turns as [|[pr outcome] turns IH]; intros st1 st2 Hd Hm.
  - done.
  - simpl. apply IH; destruct outcome; cbn; congruence.
Qed.

(** One marker per turn, in order. *)
Lemma fold_processPR_stdout (turns : list (SearchItem.t * PrLoop.Outcome))
    (st : PrLoop.State) :
  PrLoop.stdout (fold_left processPR turns st)
    = PrLoop.stdout st ++ ((fun turn => marker turn.2) <$> turns).
Proof.
  revert st. induction turns as [|[pr outcome] turns IH]; intros st.
  - csimpl. by rewrite app_nil_r.
  - csimpl. rewrite IH. destruct outcome; cbn; by rewrite <- app_assoc.
Qed.

Lemma processPRs_stdout (turns : list (SearchItem.t * PrLoop.Outcome)) :
  PrLoop.stdout (processPRs turns) = (fun turn => marker turn.2) <$> turns.
Proof. unfold PrLoop.processPRs. by rewrite fold_processPR_stdout. Qed.

Lemma processPRs_skip (before after : list (SearchItem.t * PrLoop.Outcome))
    (pr : SearchItem.t) :
  PrLoop.prDetails (processPRs (before ++ (pr, PrLoop.Rejected) :: after))
    = PrLoop.prDetails (processPRs (before ++ after)) ∧
  PrLoop.repoMap (processPRs (before ++ (pr, PrLoop.Rejected) :: after))
    = PrLoop.repoMap (processPRs (before ++ after)).
Proof.
  unfold PrLoop.processPRs. rewrite !fold_left_app. simpl.
  by apply fold_processPR_data.
Qed.

(** The same for the loop of the pr command. *)
Lemma fold_metrics_data (fetches : list (option PrMetrics.Details))
    (st1 st2 : PrMetrics.Loop) :
  PrMetrics.prMetricsData st1 = PrMetrics.prMetricsData st2 →
  PrMetrics.prMetricsData (fold_left (PrMetrics.processPR Date) fetches st1)
    = PrMetrics.prMetricsData (fold_left (PrMetrics.processPR Date) fetches st2).
Proof.
  revert st1 st2. induction fetches as [|fetched fetches IH]; intros st1 st2 Hd.
  - done.
  - simpl. apply IH. destruct fetched; cbn; congruence.
Qed.

Lemma fold_metrics_stdout (fetches : list (option PrMetrics.Details))
    (st : PrMetrics.Loop) :
  PrMetrics.stdout (fold_left (PrMetrics.processPR Date) fetches st)
    = PrMetrics.stdout st ++ (metricsMarker <$> fetches).
Proof.
  revert st. induction fetches as [|fetched fetches IH]; intros st.
  - csimpl. by rewrite app_nil_r.
  - csimpl. rewrite IH. destruct fetched; cbn; by rewrite <- app_assoc.
Qed.

(** C5: when the detail fetch of one pull request fails, the turn writes
    the marker ['x'] and leaves the record list and the per-repository
    aggregates as they were; the loop goes on with the next pull request;
    the records, the aggregates and hence the summary are those of the run
    without the failed item.  This holds for the loop of the summary and
    user commands and for the loop of the pr command. *)
Theorem failed_fetch_is_skipped
    (before after : list (SearchItem.t * PrLoop.Outcome)) (pr : SearchItem.t)
    (fetchedBefore fetchedAfter : list (option PrMetrics.Details)) :
  let failed := processPRs (before ++ (pr, PrLoop.Rejected) :: after) in
  let skipped := processPRs (before ++ after) in
  let failedMetrics := PrMetrics.processPRs Date (fetchedBefore ++ None :: fetchedAfter) in
  let skippedMetrics := PrMetrics.processPRs Date (fetchedBefore ++ fetchedAfter) in
  (∀ st, processPR st (pr, PrLoop.Rejected) =
           {| PrLoop.prDetails := PrLoop.prDetails st;
              PrLoop.repoMap := PrLoop.repoMap st;
              PrLoop.stdout := PrLoop.stdout st ++ ["x"] |}) ∧
  PrLoop.prDetails failed = PrLoop.prDetails skipped ∧
  PrLoop.repoMap failed = PrLoop.repoMap skipped ∧
  Summary.summary (PrLoop.prDetails failed) = Summary.summary (PrLoop.prDetails skipped) ∧
  PrLoop.stdout failed
    = PrLoop.stdout (processPRs before) ++ "x" :: ((fun turn => marker turn.2) <$> after) ∧
  (∀ st, PrMetrics.processPR Date st None =
           {| PrMetrics.prMetricsData := PrMetrics.prMetricsData st;
              PrMetrics.stdout := PrMetrics.stdout st ++ ["x"] |}) ∧
  PrMetrics.prMetricsData failedMetrics = PrMetrics.prMetricsData skippedMetrics ∧
  PrMetrics.stdout failedMetrics
    = PrMetrics.stdout (PrMetrics.processPRs Date fetchedBefore)
        ++ "x" :: (metricsMarker <$> fetchedAfter).
Proof.
  intros failed skipped failedMetrics skippedMetrics.
  destruct (processPRs_skip before after pr) as [Hd Hm].
  split; [done|]. split; [exact Hd|]. split; [exact Hm|].
  split; [subst failed skipped; by rewrite Hd|]. split.
  { subst failed. rewrite !processPRs_stdout, fmap_app. done. }
  split; [done|]. split.
  - subst failedMetrics skippedMetrics. unfold PrMetrics.processPRs.
    rewrite !fold_left_app. simpl. by apply fold_metrics_data.
  - subst failedMetrics. unfold PrMetrics.processPRs.
    rewrite !fold_metrics_stdout, fmap_app. done.
Qed.

End SkippedItems.

(** ** The per-repository aggregate and merge times that round to zero (C10) *)

Section ZeroMergeTime.

Variable Date : string → Z.
Variable userStats : bool.

(** After the aggregation the repository of the record has an entry: the
    bumped former entry, or the bumped fresh one. *)
Lemma aggregate_lookup (prData : PRData.t) (repoMap : gmap string RepoStats.t) :
  let name := PRData.repo prData in
  PrLoop.aggregate prData repoMap !! name
    = Some (PrLoop.bump prData (default (RepoStats.fresh name) (repoMap !! name))).
Proof.
  cbn. unfold PrLoop.aggregate.
  destruct (repoMap !! PRData.repo prData) as [repoStats|] eqn:E.
  - rewrite bool_decide_eq_true_2 by done. rewrite E. by rewrite lookup_insert_eq.
  - rewrite bool_decide_eq_false_2 by (intros [? ?]; done).
    rewrite lookup_insert_eq. by rewrite lookup_insert_eq.
Qed.

(** The aggregates of the other repositories stay as they are. *)
Lemma aggregate_lookup_other (prData : PRData.t) (repoMap : gmap string RepoStats.t)
    (other : string) :
  other ≠ PRData.repo prData →
  PrLoop.aggregate prData repoMap !! other = repoMap !! other.
Proof.
  intros Hne. unfold PrLoop.aggregate.
  destruct (repoMap !! PRData.repo prData) as [repoStats|] eqn:E.
  - rewrite bool_decide_eq_true_2 by done. rewrite E. by rewrite lookup_insert_ne.
  - rewrite bool_decide_eq_false_2 by (intros [? ?]; done).
    rewrite lookup_insert_eq. by rewrite !lookup_insert_ne.
Qed.

(** The time to merge of a record is zero exactly when the merge came less
    than 432000 ms (7.2 minutes) from the creation. *)
Lemma timeToMerge_zero (pr : SearchItem.t) (at_ : string) :
  SearchItem.merged_at pr = Some at_ → at_ ≠ EmptyString →
  let delta := (Date at_ - Date (SearchItem.created_at pr))%Z in
  ∃ v, PrLoop.timeToMerge Date pr = Some v ∧
       ((v == 0)%Q ↔ (Z.abs delta < 432000)%Z).
Proof.
  intros Hm Hs delta. unfold PrLoop.timeToMerge.
  destruct (truthyStr_Some _ _ Hm Hs) as [-> ->].
  eexists. split; [reflexivity|]. fold delta.
  rewrite toFixedNumber_zero. unfold Qlt, Qdiv.
  change (/ inject_Z MS_PER_DAY)%Q with (1 # 86400000)%Q.
  cbn. rewrite Z.mul_1_r. lia.
Qed.

(** C10: when the time to merge of a processed pull request is null or
    zero, the turn leaves [mergeTimesSum] and [mergeTimesCount] of the
    aggregate of its repository as they were (those of a fresh aggregate
    when the repository is new), and still adds the pull request to
    [totalPRs], [mergedPRs] (when merged), [totalComments] and
    [changesRequested]. *)
Theorem zero_merge_time_not_averaged (st : PrLoop.State) (pr : SearchItem.t)
    (reviews : list Review.t) (comments : list Comment.t) (commits : list Commit.t) :
  let prData := PrLoop.record Date userStats pr reviews comments commits in
  let name := PRData.repo prData in
  let before := default (RepoStats.fresh name) (PrLoop.repoMap st !! name) in
  let st' := PrLoop.processPR Date userStats st (pr, PrLoop.Resolved reviews comments commits) in
  (PRData.timeToMerge prData = None ∨
   ∃ v, PRData.timeToMerge prData = Some v ∧ (v == 0)%Q) →
  ∃ after,
    PrLoop.repoMap st' !! name = Some after ∧
    RepoStats.mergeTimesSum after = RepoStats.mergeTimesSum before ∧
    RepoStats.mergeTimesCount after = RepoStats.mergeTimesCount before ∧
    RepoStats.totalPRs after = S (RepoStats.totalPRs before) ∧
    RepoStats.mergedPRs after =
      (if PRData.merged prData then S (RepoStats.mergedPRs before)
       else RepoStats.mergedPRs before) ∧
    RepoStats.totalComments after = RepoStats.totalComments before + PRData.comments prData ∧
    RepoStats.changesRequested after
      = RepoStats.changesRequested before + PRData.changesRequested prData.
Proof.
  intros prData name before st' Hzero.
  exists (PrLoop.bump prData before). split.
  - subst st' name before. cbn [PrLoop.processPR PrLoop.repoMap].
    fold prData. apply aggregate_lookup.
  - assert (Hfalsy : JsNum.truthyOpt (PRData.timeToMerge prData) = false).
    { destruct Hzero as [-> | (v & -> & Hv)]; [done|]. by apply truthy_false. }
    unfold PrLoop.bump. rewrite Hfalsy. cbn. done.
Qed.

End ZeroMergeTime.

Lemma zero_merge_time_not_averaged_witness :
  let prData := PrLoop.record Sample.Date false Sample.quickItem [] [] [] in
  let name := PRData.repo prData in
  let st' :=
    PrLoop.processPR Sample.Date false PrLoop.initial
      (Sample.quickItem, PrLoop.Resolved [] [] []) in
  (PRData.timeToMerge prData = None ∨
   ∃ v, PRData.timeToMerge prData = Some v ∧ (v == 0)%Q) ∧
  PRData.merged prData = true ∧
  ∃ after,
    PrLoop.repoMap st' !! name = Some after ∧
    RepoStats.mergeTimesSum after = 0%Q ∧
    RepoStats.mergeTimesCount after = 0 ∧
    RepoStats.totalPRs after = 1 ∧
    RepoStats.mergedPRs after = 1.
Proof.
  intros prData name st'.
  assert (Hzero : PRData.timeToMerge prData = None ∨
                  ∃ v, PRData.timeToMerge prData = Some v ∧ (v == 0)%Q).
  { right. eexists. split; [vm_compute; reflexivity | reflexivity]. }
  split; [exact Hzero|]. split; [reflexivity|].
  destruct (zero_merge_time_not_averaged Sample.Date false PrLoop.initial
              Sample.quickItem [] [] [] Hzero)
    as (after & Hlook & Hsum & Hcount & Htotal & Hmerged & _).
  exists after. split; [exact Hlook|]. split; [exact Hsum|]. split; [exact Hcount|].
  split; [exact Htotal | exact Hmerged].
Defined.

(** ** AI co-authorship detection (C3) *)

Section AiDetectionFacts.

Import Regex AiDetection.

Local Open Scope list_scope.

(** Folding the case leaves line terminators alone. *)
Lemma isLineTerminator_canonicalize (a : ascii) :
  isLineTerminator (canonicalize a) = isLineTerminator a.
Proof. destruct a as [[] [] [] [] [] [] [] []]; reflexivity. Qed.

Lemma deriv_sameLetter (a b : ascii) (r : re) :
  sameLetter a b → deriv a r = deriv b r.
Proof.
  unfold sameLetter. intros Hab. induction r as [| |c| |r IHr s IHs|r IHr s IHs|r IHr]; simpl.
  - done.
  - done.
  - by rewrite Hab.
  - by rewrite <- (isLineTerminator_canonicalize a), Hab, isLineTerminator_canonicalize.
  - by rewrite IHr, IHs.
  - by rewrite IHr, IHs.
  - by rewrite IHr.
Qed.

Lemma matchesPrefix_caseVariant (s t : string) :
  caseVariant s t → ∀ r, matchesPrefix r s = matchesPrefix r t.
Proof.
  induction 1 as [|a b s t Hab _ IH]; intros r; simpl; [done|].
  by rewrite (deriv_sameLetter a b r Hab), IH.
Qed.

(** [test] with the [i] flag does not see the case of letters. *)
Lemma test_caseVariant (s t : string) :
  caseVariant s t → ∀ r, test r s = test r t.
Proof.
  intros Hst r. induction Hst as [|a b s t Hab Hst IH]; simpl; [done|].
  rewrite IH. f_equal.
  by rewrite (deriv_sameLetter a b r Hab), (matchesPrefix_caseVariant s t Hst).
Qed.

Lemma includes_spec (tools : list string) (tool : string) :
  includes tools tool = true ↔ tool ∈ tools.
Proof.
  unfold includes. rewrite existsb_exists. split.
  - intros (x & Hin & Heq). apply String.eqb_eq in Heq. subst x.
    by apply list_elem_of_In.
  - intros Hin. exists tool. split; [by apply list_elem_of_In | apply String.eqb_refl].
Qed.

Lemma includes_false (tools : list string) (tool : string) :
  includes tools tool = false ↔ tool ∉ tools.
Proof.
  rewrite <- includes_spec. destruct (includes tools tool); split; congruence.
Qed.

(** The tools found in a message: those of the patterns that match. *)
Lemma detectStep_elem (message : string) (acc : list string) (p : re * string)
    (tool : string) :
  tool ∈ detectStep message acc p ↔
  tool ∈ acc ∨ (test p.1 message = true ∧ p.2 = tool).
Proof.
  destruct p as [pattern t]. unfold detectStep. cbn [fst snd].
  destruct (test pattern message); [|naive_solver].
  destruct (includes acc t) eqn:E; cbn [negb].
  - apply includes_spec in E. naive_solver.
  - rewrite elem_of_app, list_elem_of_singleton. naive_solver.
Qed.

Lemma detect_fold_elem (message : string) (ps : list (re * string)) (acc : list string)
    (tool : string) :
  tool ∈ fold_left (detectStep message) ps acc ↔
  tool ∈ acc ∨ ∃ p, p ∈ ps ∧ test p.1 message = true ∧ p.2 = tool.
Proof.
  revert acc. induction ps as [|p ps IH]; intros acc; simpl.
  - split; [by left|]. intros [H | (p & Hp & _)]; [done|]. by apply elem_of_nil in Hp.
  - rewrite IH, detectStep_elem. split.
    + intros [[H | H] | (q & Hq & H)].
      * by left.
      * right. exists p. split; [apply list_elem_of_here | done].
      * right. exists q. split; [by apply list_elem_of_further | done].
    + intros [H | (q & Hq & H)]; [by left; left|].
      apply elem_of_cons in Hq as [-> | Hq]; [by left; right|].
      right. by exists q.
Qed.

Lemma detectStep_NoDup (message : string) (acc : list string) (p : re * string) :
  NoDup acc → NoDup (detectStep message acc p).
Proof.
  intros Hacc. destruct p as [pattern t]. unfold detectStep.
  destruct (test pattern message); [|done].
  destruct (includes acc t) eqn:E; cbn [negb]; [done|].
  apply includes_false in E. apply NoDup_app. split; [done|]. split.
  - intros x Hx Hx'. apply list_elem_of_singleton in Hx'. by subst x.
  - apply NoDup_singleton.
Qed.

Lemma detect_fold_NoDup (message : string) (ps : list (re * string)) (acc : list string) :
  NoDup acc → NoDup (fold_left (detectStep message) ps acc).
Proof.
  revert acc. induction ps as [|p ps IH]; intros acc Hacc; simpl; [done|].
  by apply IH, detectStep_NoDup.
Qed.

Lemma detect_NoDup (message : string) : NoDup (aiTools (detectAICoAuthorship message)).
Proof. apply detect_fold_NoDup, NoDup_nil_2. Qed.

Lemma detect_elem (message tool : string) :
  tool ∈ aiTools (detectAICoAuthorship message) ↔
  ∃ p, p ∈ aiPatterns ∧ test p.1 message = true ∧ p.2 = tool.
Proof.
  unfold detectAICoAuthorship. cbn [aiTools]. rewrite detect_fold_elem.
  split; [|by right]. intros [H | H]; [|done]. by apply elem_of_nil in H.
Qed.

Lemma detect_flag (message : string) :
  isAIAssisted (detectAICoAuthorship message) = true ↔
  aiTools (detectAICoAuthorship message) ≠ [].
Proof.
  unfold detectAICoAuthorship. cbn [isAIAssisted aiTools].
  destruct (fold_left (detectStep message) aiPatterns []); cbn; split; done.
Qed.

Lemma detect_matches (message : string) :
  isAIAssisted (detectAICoAuthorship message) = true ↔ matchesKnownPattern message.
Proof.
  rewrite detect_flag. unfold matchesKnownPattern. split.
  - intros Hne. destruct (aiTools (detectAICoAuthorship message)) as [|tool tools] eqn:E;
      [done|].
    assert (Hin : tool ∈ aiTools (detectAICoAuthorship message)).
    { rewrite E. apply list_elem_of_here. }
    apply detect_elem in Hin as (p & Hp & Ht & _). by exists p.
  - intros (p & Hp & Ht) E.
    assert (Hin : p.2 ∈ aiTools (detectAICoAuthorship message)).
    { apply detect_elem. by exists p. }
    rewrite E in Hin. by apply elem_of_nil in Hin.
Qed.

Lemma detect_caseVariant (s t : string) :
  caseVariant s t → detectAICoAuthorship s = detectAICoAuthorship t.
Proof.
  intros Hst.
  assert (Hfold : ∀ ps acc,
            fold_left (detectStep s) ps acc = fold_left (detectStep t) ps acc).
  { induction ps as [|[pattern tool] ps IH]; intros acc; simpl; [done|].
    by rewrite (test_caseVariant s t Hst pattern), IH. }
  unfold detectAICoAuthorship. by rewrite Hfold.
Qed.

(** Adding to the set keeps it free of duplicates. *)
Lemma setAdd_fold (tools : list string) (s : list string) :
  NoDup s →
  NoDup (fold_left setAdd tools s) ∧
  ∀ x, x ∈ fold_left setAdd tools s ↔ x ∈ s ∨ x ∈ tools.
Proof.
  revert s. induction tools as [|tool tools IH]; intros s Hs; simpl.
  - split; [done|]. intros x. rewrite elem_of_nil. naive_solver.
  - assert (Hadd : NoDup (setAdd s tool) ∧ ∀ x, x ∈ setAdd s tool ↔ x ∈ s ∨ x = tool).
    { unfold setAdd. destruct (includes s tool) eqn:E.
      - apply includes_spec in E. split; [done|]. naive_solver.
      - apply includes_false in E. split.
        + apply NoDup_app. split; [done|]. split; [|apply NoDup_singleton].
          intros x Hx Hx'. apply list_elem_of_singleton in Hx'. by subst x.
        + intros x. by rewrite elem_of_app, list_elem_of_singleton. }
    destruct Hadd as [Hnd Hel]. destruct (IH _ Hnd) as [IH1 IH2].
    split; [done|]. intros x. rewrite IH2, Hel, elem_of_cons. naive_solver.
Qed.

(** The invariant of the scan of the commits of a pull request. *)
Lemma scan_fold (messages : list string) (acc : bool * list string) :
  NoDup acc.2 →
  let result := fold_left scanStep messages acc in
  NoDup result.2 ∧
  (result.1 = true ↔ acc.1 = true ∨ ∃ m, m ∈ messages ∧ matchesKnownPattern m) ∧
  (∀ tool, tool ∈ result.2 ↔
     tool ∈ acc.2 ∨ ∃ m, m ∈ messages ∧ tool ∈ aiTools (detectAICoAuthorship m)).
Proof.
  revert acc. induction messages as [|m messages IH]; intros acc Hacc; simpl.
  - split; [done|]. split.
    + split; [by left|]. intros [H | (m & Hm & _)]; [done|]. by apply elem_of_nil in Hm.
    + intros tool. split; [by left|].
      intros [H | (m & Hm & _)]; [done|]. by apply elem_of_nil in Hm.
  - assert (Hstep : NoDup (scanStep acc m).2 ∧
              ((scanStep acc m).1 = true ↔ acc.1 = true ∨ matchesKnownPattern m) ∧
              (∀ tool, tool ∈ (scanStep acc m).2 ↔
                 tool ∈ acc.2 ∨ tool ∈ aiTools (detectAICoAuthorship m))).
    { unfold scanStep. destruct (isAIAssisted (detectAICoAuthorship m)) eqn:E.
      - destruct (setAdd_fold (aiTools (detectAICoAuthorship m)) acc.2 Hacc) as [H1 H2].
        cbn [fst snd]. split; [done|]. split; [|done].
        split; [|done]. intros _. right. by apply detect_matches.
      - split; [done|]. split.
        + split; [by left|]. intros [H | H]; [done|].
          apply detect_matches in H. congruence.
        + intros tool. split; [by left|]. intros [H | H]; [done|].
          assert (Hne : aiTools (detectAICoAuthorship m) ≠ []).
          { intros Hnil. rewrite Hnil in H. by apply elem_of_nil in H. }
          apply detect_flag in Hne. congruence. }
    destruct Hstep as (Hnd & Hflag & Htools).
    destruct (IH _ Hnd) as (IH1 & IH2 & IH3). split; [done|]. split.
    + rewrite IH2, Hflag. split.
      * intros [[H | H] | (m' & Hm' & H)]; [by left | |].
        -- right. exists m. split; [apply list_elem_of_here | done].
        -- right. exists m'. split; [by apply list_elem_of_further | done].
      * intros [H | (m' & Hm' & H)]; [by left; left|].
        apply elem_of_cons in Hm' as [-> | Hm']; [by left; right|].
        right. by exists m'.
    + intros tool. rewrite IH3, Htools. split.
      * intros [[H | H] | (m' & Hm' & H)]; [by left | |].
        -- right. exists m. split; [apply list_elem_of_here | done].
        -- right. exists m'. split; [by apply list_elem_of_further | done].
      * intros [H | (m' & Hm' & H)]; [by left; left|].
        apply elem_of_cons in Hm' as [-> | Hm']; [by left; right|].
        right. by exists m'.
Qed.

End AiDetectionFacts.

Section AiDetectionOfRecords.

Import AiDetection.

Lemma record_ai (Date : string → Z) (userStats : bool) (pr : SearchItem.t)
    (reviews : list Review.t) (comments : list Comment.t) (commits : list Commit.t) :
  let prData := PrLoop.record Date userStats pr reviews comments commits in
  PRData.aiAssisted prData = (scanCommits (Commit.message <$> commits)).1 ∧
  PRData.aiTools prData = (scanCommits (Commit.message <$> commits)).2.
Proof.
  cbn. unfold PrLoop.record.
  by destruct (scanCommits (Commit.message <$> commits)) as [flag tools].
Qed.

(** C3: [detectAICoAuthorship] gives the same result for two messages that
    differ only in the case of letters; its [aiTools] list has no duplicate
    and [isAIAssisted] is true exactly when the list is not empty, which is
    exactly when the message matches one of the known patterns.  A record
    built by the per-PR loop is flagged [aiAssisted] exactly when the
    message of one of its commits matches a known pattern; its [aiTools]
    list has no duplicate and holds exactly the tools detected in its
    commits. *)
Theorem ai_detection :
  (∀ s t, caseVariant s t → detectAICoAuthorship s = detectAICoAuthorship t) ∧
  (∀ message,
     NoDup (aiTools (detectAICoAuthorship message)) ∧
     (isAIAssisted (detectAICoAuthorship message) = true ↔
        aiTools (detectAICoAuthorship message) ≠ []) ∧
     (isAIAssisted (detectAICoAuthorship message) = true ↔ matchesKnownPattern message)) ∧
  (∀ (Date : string → Z) (userStats : bool) (pr : SearchItem.t) (reviews : list Review.t)
     (comments : list Comment.t) (commits : list Commit.t),
     let prData := PrLoop.record Date userStats pr reviews comments commits in
     (PRData.aiAssisted prData = true ↔
        ∃ c, c ∈ commits ∧ matchesKnownPattern (Commit.message c)) ∧
     NoDup (PRData.aiTools prData) ∧
     (∀ tool, tool ∈ PRData.aiTools prData ↔
        ∃ c, c ∈ commits ∧ tool ∈ aiTools (detectAICoAuthorship (Commit.message c)))).
Proof.
  split; [exact detect_caseVariant|]. split.
  { intros message. split; [apply detect_NoDup|]. split; [apply detect_flag|].
    apply detect_matches. }
  intros Date userStats pr reviews comments commits prData.
  destruct (record_ai Date userStats pr reviews comments commits) as [Hflag Htools].
  fold prData in Hflag, Htools. rewrite Hflag, Htools.
  destruct (scan_fold (Commit.message <$> commits) (false, []) (NoDup_nil_2 (A:=string)))
    as (Hnd & Hassisted & Hel).
  fold (scanCommits (Commit.message <$> commits)) in Hnd, Hassisted, Hel.
  split; [|split; [exact Hnd|]].
  - rewrite Hassisted. split.
    + intros [H | (m & Hm & H)]; [done|].
      apply list_elem_of_fmap in Hm as (c & -> & Hc). by exists c.
    + intros (c & Hc & H). right. exists (Commit.message c).
      split; [|done]. apply list_elem_of_fmap. by exists c.
  - intros tool. rewrite Hel. split.
    + intros [H | (m & Hm & H)]; [by apply elem_of_nil in H|].
      apply list_elem_of_fmap in Hm as (c & -> & Hc). by exists c.
    + intros (c & Hc & H). right. exists (Commit.message c).
      split; [|done]. apply list_elem_of_fmap. by exists c.
Qed.

Lemma ai_detection_witness :
  caseVariant "Co-authored-by: Claude" "CO-AUTHORED-BY: cLAUDE" ∧
  detectAICoAuthorship "Co-authored-by: Claude"
    = detectAICoAuthorship "CO-AUTHORED-BY: cLAUDE" ∧
  aiTools (detectAICoAuthorship "Co-authored-by: Claude") = ["Claude"].
Proof.
  assert (H : caseVariant "Co-authored-by: Claude" "CO-AUTHORED-BY: cLAUDE").
  { repeat (constructor; [reflexivity|]). constructor. }
  split; [exact H|]. split; [exact (proj1 ai_detection _ _ H) | reflexivity].
Defined.

End AiDetectionOfRecords.

(** ** Pagination (C4) *)

Section Pagination.

Import GitHubClient.

Local Open Scope list_scope.
Local Open Scope nat_scope.

Context {A : Type}.
Variable octokit : Request → list A.
Variable e : Endpoint.
Variable keep : list A → list A.

Abbreviation body := (turn octokit e keep).

Lemma hasMore_turn (st : Paging A) :
  hasMore (body st) = true ↔ fullPage octokit e (page_ st).
Proof. unfold fullPage, pageRequest. cbn. apply Nat.eqb_eq. Qed.

(** A loop with a cap, started on page [page_ st] with [n] pages to go. *)
Lemma capped_run (cap n : nat) :
  ∀ st : Paging A, hasMore st = true → page_ st + n = S cap → 1 ≤ n →
  ∀ fuel, n < fuel →
  ∃ k st',
    while fuel (capped cap) body st = Some st' ∧ 1 ≤ k ≤ n ∧
    requests st' = requests st ++ (pageRequest e <$> seq (page_ st) k) ∧
    items st' = items st ++
      concat ((fun p => keep (octokit (pageRequest e p))) <$> seq (page_ st) k) ∧
    (∀ p, page_ st ≤ p < page_ st + k - 1 → fullPage octokit e p) ∧
    (k < n → ¬ fullPage octokit e (page_ st + k - 1)).
Proof.
  induction n as [|n IH]; intros st Hmore Hpage Hn fuel Hfuel; [lia|].
  destruct fuel as [|fuel]; [lia|]. simpl.
  assert (Hcond : capped cap st = true).
  { unfold capped. rewrite Hmore. apply Nat.leb_le. lia. }
  rewrite Hcond.
  destruct (hasMore (body st)) eqn:Hfull.
  - destruct n as [|n].
    + (* the cap is reached *)
      exists 1, (body st). destruct fuel as [|fuel]; [lia|]. simpl.
      assert (Hstop : capped cap (body st) = false).
      { unfold capped. rewrite Hfull. apply Nat.leb_gt. cbn. lia. }
      rewrite Hstop. split; [done|]. split; [lia|]. split; [done|].
      split; [cbn; by rewrite app_nil_r|]. split; intros; lia.
    + destruct (IH (body st) Hfull) with (fuel := fuel)
        as (k & st' & Hrun & Hk & Hreq & Hitems & Hbefore & Hlast);
        [cbn; lia | lia | lia |].
      exists (S k), st'. split; [done|]. split; [lia|].
      cbn [page_ turn] in Hreq, Hitems, Hbefore, Hlast.
      split; [|split; [|split]].
      * rewrite Hreq. cbn [requests turn]. by rewrite <- app_assoc.
      * rewrite Hitems. cbn [items turn]. by rewrite <- app_assoc.
      * intros p Hp. destruct (decide (p = page_ st)) as [->|Hne].
        -- by apply hasMore_turn.
        -- apply Hbefore. lia.
      * intros Hlt. replace (page_ st + S k - 1) with (S (page_ st) + k - 1) by lia.
        apply Hlast. lia.
  - (* the page was not full *)
    exists 1, (body st). destruct fuel as [|fuel]; [lia|]. simpl.
    assert (Hstop : capped cap (body st) = false).
    { unfold capped. by rewrite Hfull. }
    rewrite Hstop. split; [done|]. split; [lia|]. split; [done|].
    split; [cbn; by rewrite app_nil_r|]. split; [intros; lia|].
    intros _. replace (page_ st + 1 - 1) with (page_ st) by lia.
    rewrite <- hasMore_turn. by rewrite Hfull.
Qed.

(** A loop without a cap that meets [k] full pages and then one that is not. *)
Lemma uncapped_run (k : nat) :
  ∀ st : Paging A, hasMore st = true →
  (∀ p, page_ st ≤ p < page_ st + k → fullPage octokit e p) →
  ¬ fullPage octokit e (page_ st + k) →
  ∀ fuel, S k < fuel →
  ∃ st',
    while fuel hasMore body st = Some st' ∧
    requests st' = requests st ++ (pageRequest e <$> seq (page_ st) (S k)) ∧
    items st' = items st ++
      concat ((fun p => keep (octokit (pageRequest e p))) <$> seq (page_ st) (S k)).
Proof.
  induction k as [|k IH]; intros st Hmore Hfull Hshort fuel Hfuel.
  - destruct fuel as [|[|fuel]]; [lia | lia |]. cbn [while]. rewrite Hmore.
    assert (Hstop : hasMore (body st) = false).
    { destruct (hasMore (body st)) eqn:E; [|done].
      apply hasMore_turn in E. rewrite Nat.add_0_r in Hshort. done. }
    rewrite Hstop. exists (body st). split; [done|]. split; [done|].
    cbn. by rewrite app_nil_r.
  - destruct fuel as [|fuel]; [lia|]. cbn [while]. rewrite Hmore.
    assert (Hnext : hasMore (body st) = true).
    { apply hasMore_turn, Hfull. lia. }
    destruct (IH (body st) Hnext) with (fuel := fuel) as (st' & Hrun & Hreq & Hitems).
    + intros p Hp. apply Hfull. cbn in Hp. lia.
    + cbn [page_ turn]. by replace (S (page_ st) + k) with (page_ st + S k) by lia.
    + lia.
    + exists st'. split; [done|]. cbn [page_ turn] in Hreq, Hitems. split.
      * rewrite Hreq. cbn [requests turn]. by rewrite <- app_assoc.
      * rewrite Hitems. cbn [items turn]. by rewrite <- app_assoc.
Qed.

(** A loop without a cap never ends when every page is full. *)
Lemma uncapped_diverges (fuel : nat) :
  ∀ st : Paging A, hasMore st = true →
  (∀ p, page_ st ≤ p → fullPage octokit e p) →
  while fuel hasMore body st = None.
Proof.
  induction fuel as [|fuel IH]; intros st Hmore Hfull; [done|].
  cbn [while]. rewrite Hmore. apply IH.
  - apply hasMore_turn, Hfull. lia.
  - intros p Hp. apply Hfull. cbn in Hp. lia.
Qed.

End Pagination.

Section PaginatedFetches.

Import GitHubClient.

Local Open Scope list_scope.
Local Open Scope nat_scope.

Lemma pages_length {A : Type} (octokit : Request → list A) (e : Endpoint) (first k : nat) :
  honoursPerPage octokit →
  length (concat ((fun p => octokit (pageRequest e p)) <$> seq first k)) ≤ 100 * k.
Proof.
  intros Hserver. revert first. induction k as [|k IH]; intros first; csimpl; [lia|].
  rewrite length_app. specialize (IH (S first)).
  pose proof (Hserver (pageRequest e first)) as Hpage. cbn in Hpage. lia.
Qed.

Lemma capped_fetch {A : Type} (cap : nat) (octokit : Request → list A) (e : Endpoint) :
  1 ≤ cap →
  cappedFetch cap octokit
    (fun fuel => while fuel (capped cap) (turn octokit e (fun data => data)) start).
Proof.
  intros Hcap fuel Hfuel.
  destruct (capped_run octokit e (fun data => data) cap cap start eq_refl)
    with (fuel := fuel) as (k & st & Hrun & Hk & Hreq & Hitems & Hbefore & Hlast);
    [cbn; lia | done | done |].
  cbn [start requests items page_ app] in Hreq, Hitems, Hbefore, Hlast.
  exists e, k, st. split; [done|]. split; [done|]. split; [|split].
  - split; [done|]. split; [done|]. intros p Hp. apply Hbefore. lia.
  - intros Hlt. replace k with (1 + k - 1) at 1 by lia. by apply Hlast.
  - intros Hserver. rewrite Hitems.
    pose proof (pages_length octokit e 1 k Hserver). lia.
Qed.

Lemma uncapped_fetch {A : Type} (octokit : Request → list A) (e : Endpoint)
    (keep : list A → list A) :
  uncappedFetch octokit (fun fuel => while fuel hasMore (turn octokit e keep) start).
Proof.
  exists e, keep. split.
  - intros k Hfull Hshort fuel Hfuel.
    destruct (uncapped_run octokit e keep k start eq_refl) with (fuel := fuel)
      as (st & Hrun & Hreq & Hitems); [| done | done |].
    { intros p Hp. apply Hfull. cbn in Hp. lia. }
    cbn [start requests items page_ app] in Hreq, Hitems.
    exists st. split; [done|]. split; [done|]. split; [done|].
    intros p Hp. apply Hfull. lia.
  - intros Hfull fuel. apply uncapped_diverges; [done|].
    intros p Hp. apply Hfull. cbn in Hp. lia.
Qed.

(** C4, as stated, fails: [fetchRepoPRs] has no page cap.  From a remote
    end with eleven full pages it requests twelve pages and returns 1100
    pull requests. *)
Lemma fetchRepoPRs_passes_ten_pages :
  let octokit := Sample.remote (Sample.listed 1) 11 0 in
  honoursPerPage octokit ∧
  ∃ st,
    fetchRepoPRs Sample.Date octokit "adobe" "helix" Sample.noOptions 13 = Some st ∧
    length (requests st) = 12 ∧
    length (items st) = 1100.
Proof.
  split.
  - intros r. unfold Sample.remote. rewrite repeat_length. lia.
  - eexists. split; [vm_compute; reflexivity|]. split; reflexivity.
Qed.

(** C4 (amended): every paginated fetch asks for the pages 1, 2, ... with
    [per_page: 100] and stops at the first page that does not hold exactly
    100 items.  The search fetches ([fetchUserCommits],
    [fetchUserPRsAcrossRepos], [fetchUserIssuesAcrossRepos]) also stop
    after 10 pages, and [fetchUserEvents] after 3: they end and return at
    most 1000 (300) items from a remote end that honours [per_page].
    [fetchUserPRs] and [fetchRepoPRs] have no page cap: they end only when
    a page that is not full arrives. *)
Theorem paginated_fetches {A B : Type} (Date : string → Z)
    (commits : Request → list A) (events : Request → list B)
    (search : Request → list SearchItem.t) (pulls : Request → list ListedPR.t)
    (owner repo username : string) (options : Options) :
  cappedFetch 10 commits (fetchUserCommits commits username options) ∧
  cappedFetch 3 events (fetchUserEvents events username) ∧
  cappedFetch 10 search (fetchUserPRsAcrossRepos search username options) ∧
  cappedFetch 10 search (fetchUserIssuesAcrossRepos search username options) ∧
  uncappedFetch pulls (fetchUserPRs Date pulls owner repo username options) ∧
  uncappedFetch pulls (fetchRepoPRs Date pulls owner repo options).
Proof.
  split; [apply capped_fetch; lia|]. split; [apply capped_fetch; lia|].
  split; [apply capped_fetch; lia|]. split; [apply capped_fetch; lia|].
  split; apply uncapped_fetch.
Qed.

Lemma paginated_fetches_witness :
  let octokit := Sample.remote Sample.mergedItem 2 7 in
  honoursPerPage octokit ∧
  ∃ st,
    fetchUserPRsAcrossRepos octokit "bob" Sample.noOptions 11 = Some st ∧
    length (requests st) = 3 ∧
    length (items st) ≤ 100 * 10.
Proof.
  intros octokit.
  assert (Hserver : honoursPerPage octokit).
  { intros r. unfold octokit, Sample.remote. rewrite repeat_length. lia. }
  split; [exact Hserver|].
  destruct (paginated_fetches Sample.Date octokit octokit octokit
              (Sample.remote (Sample.listed 1) 0 0) "adobe" "helix" "bob" Sample.noOptions)
    as (_ & _ & Hprs & _).
  destruct (Hprs 11 ltac:(lia)) as (e & k & st & Hrun & Hk & Hpaged & Hlast & Hbound).
  exists st. split; [exact Hrun|]. split; [|exact (Hbound Hserver)].
  pose proof Hrun as Hst. vm_compute in Hst. injection Hst as <-. reflexivity.
Defined.

End PaginatedFetches.

(** ** CSV rows (C7) *)

Section CsvRows.

Import JsStr Csv.

Lemma append_cons (a : ascii) (s t : string) : String a s +:+ t = String a (s +:+ t).
Proof. reflexivity. Qed.

Lemma append_nil_l (t : string) : EmptyString +:+ t = t.
Proof. reflexivity. Qed.

Lemma append_nil_r (s : string) : s +:+ EmptyString = s.
Proof. induction s as [|a s IH]; [done | rewrite append_cons; by f_equal]. Qed.

Lemma append_assoc (s t u : string) : (s +:+ t) +:+ u = s +:+ t +:+ u.
Proof. induction s as [|a s IH]; [done | rewrite !append_cons; by f_equal]. Qed.

Lemma doubleQuotes_quoteFree (s : string) : quoteFree s → doubleQuotes s = s.
Proof.
  unfold quoteFree. induction s as [|a s IH]; simpl; [done|].
  intros H. apply orb_false_iff in H as [Ha Hs]. rewrite Ha. by rewrite IH.
Qed.

(** Reading a quoted cell: the doubled quotes give back the value. *)
Lemma parseFrom_quoted (cell field rest : string) :
  parseFrom Quoted field (doubleQuotes cell +:+ String dquote rest)
    = parseFrom QuoteSeen (field +:+ cell) rest.
Proof.
  revert field. induction cell as [|a cell IH]; intros field.
  - cbn [doubleQuotes]. rewrite append_nil_l, append_nil_r.
    cbn [parseFrom]. by rewrite Ascii.eqb_refl.
  - cbn [doubleQuotes]. destruct (Ascii.eqb a dquote) eqn:E.
    + rewrite !append_cons. cbn [parseFrom]. rewrite !Ascii.eqb_refl.
      rewrite IH. apply Ascii.eqb_eq in E. subst a.
      unfold snoc. by rewrite append_assoc.
    + rewrite append_cons. cbn [parseFrom]. rewrite E.
      rewrite IH. unfold snoc. by rewrite append_assoc.
Qed.

Lemma parse_toRow_one (cell : string) :
  parse (SingleFile.toRow [cell]) = Some [cell].
Proof.
  unfold parse, SingleFile.toRow, quoted. cbn [fmap list_fmap join parseFrom].
  rewrite Ascii.eqb_refl. by rewrite parseFrom_quoted.
Qed.

Lemma parse_toRow_cons (cell next : string) (cells : list string) :
  parse (SingleFile.toRow (cell :: next :: cells))
    = cons cell <$> parse (SingleFile.toRow (next :: cells)).
Proof.
  unfold parse, SingleFile.toRow. cbn [fmap list_fmap join].
  unfold quoted at 1. rewrite append_cons. cbn [parseFrom]. rewrite Ascii.eqb_refl.
  rewrite append_assoc, append_cons, append_nil_l. rewrite parseFrom_quoted.
  rewrite append_nil_l, append_cons, append_nil_l. cbn [parseFrom]. done.
Qed.

(** A row of the single-file export reads back as its cells. *)
Lemma parse_toRow (cells : list string) :
  cells ≠ [] → parse (SingleFile.toRow cells) = Some cells.
Proof.
  induction cells as [|cell [|next cells] IH]; intros Hne; [done | |].
  - apply parse_toRow_one.
  - rewrite parse_toRow_cons, IH; done.
Qed.

Lemma line_doubleQuotes (cells : list string) :
  MultiFile.line (doubleQuotes <$> cells) = SingleFile.toRow cells.
Proof.
  unfold MultiFile.line, SingleFile.toRow. by rewrite <- list_fmap_compose.
Qed.

Lemma doubleQuotes_fmap_quoteFree (cells : list string) :
  Forall quoteFree cells → doubleQuotes <$> cells = cells.
Proof.
  induction 1 as [|cell cells Hc _ IH]; csimpl; [done|].
  by rewrite doubleQuotes_quoteFree, IH.
Qed.

End CsvRows.

Section CsvExports.

Import JsStr Csv.

(** The row of a pull request in the multi-file export reads back as its
    cells when no cell but the title holds a double quote. *)
Lemma multiFile_prRow (pr : PRData.t) :
  Forall quoteFree (prCells (fun _ => EmptyString) pr) →
  wellFormed (prCells (fun title => title) pr) (MultiFile.prRow pr).
Proof.
  intros Hfree. unfold wellFormed, MultiFile.prRow.
  assert (Hcells : prCells doubleQuotes pr
                     = doubleQuotes <$> prCells (fun title => title) pr).
  { unfold prCells in *.
    repeat match goal with
           | H : Forall _ (_ :: _) |- _ => apply Forall_cons in H as [? H]
           end.
    csimpl. repeat (f_equal; try (symmetry; by apply doubleQuotes_quoteFree)). }
  rewrite Hcells, line_doubleQuotes. by apply parse_toRow.
Qed.

(** C7, as stated, fails.  The multi-file export writes the user name
    between quotes as it is: with a double quote in the name the row does
    not read back as its three cells (it is no CSV record at all).  And
    [formatPRMetricsCSV] writes its first cell, the number, bare. *)
Lemma multi_file_row_not_escaped :
  ¬ wellFormed (userCells Sample.quotedUser) (MultiFile.userRow Sample.quotedUser) ∧
  parse (MultiFile.userRow Sample.quotedUser) = None ∧
  String.get 0
    (prMetricsRow
       (PrMetrics.calculatePRMetrics Sample.Date
          (Sample.details (Sample.pull "2024-01-01T00:00:00Z" None None))))
    = Some "1"%char.
Proof.
  assert (H : parse (MultiFile.userRow Sample.quotedUser) = None) by (vm_compute; done).
  split; [|split; [exact H|vm_compute; done]].
  unfold wellFormed. rewrite H. discriminate.
Qed.

(** C7 (amended): in the single-file export every cell is put between
    double quotes with the double quotes of its value doubled, so every row
    reads back as the cells it was written from.  In the multi-file export
    every cell is put between double quotes, and only titles have their
    double quotes doubled: a row reads back as its cells when the cells
    that are written as they are hold no double quote. *)
Theorem csv_rows (cells : list string) (pr : PRData.t) :
  cells ≠ [] →
  wellFormed cells (SingleFile.toRow cells) ∧
  wellFormed (prCells (fun title => title) pr) (SingleFile.prRow pr) ∧
  MultiFile.line (doubleQuotes <$> cells) = SingleFile.toRow cells ∧
  (Forall quoteFree cells → wellFormed cells (MultiFile.line cells)) ∧
  (Forall quoteFree (prCells (fun _ => EmptyString) pr) →
   wellFormed (prCells (fun title => title) pr) (MultiFile.prRow pr)).
Proof.
  intros Hne. split; [by apply parse_toRow|]. split; [by apply parse_toRow|].
  split; [apply line_doubleQuotes|]. split; [|apply multiFile_prRow].
  intros Hfree. unfold wellFormed.
  rewrite <- (doubleQuotes_fmap_quoteFree cells Hfree) at 1.
  rewrite line_doubleQuotes. by apply parse_toRow.
Qed.

Lemma csv_rows_witness :
  let cells := ["Title"; Sample.quotedUser; "a,b"] in
  cells ≠ [] ∧ wellFormed cells (SingleFile.toRow cells).
Proof.
  intros cells.
  assert (Hne : cells ≠ []) by discriminate.
  split; [exact Hne|].
  exact (proj1 (csv_rows cells (PrLoop.record Sample.Date false Sample.mergedItem [] [] []) Hne)).
Defined.

End CsvExports.

(** ** The changes-requested histogram (C8) *)

Section Histogram.

(** C8: when the processed records have the changes-requested counts 0, 1
    and 2, the distribution is [{0: 1, 1: 1, 2: 1}], one clean pull request
    is counted and the clean percentage reads 33.3. *)
Theorem distribution_of_three (prDetails : list PRData.t) :
  PRData.changesRequested <$> prDetails = [0; 1; 2] →
  let s := Summary.summary prDetails in
  Summary.distribution s = <[2 := 1]> (<[1 := 1]> (<[0 := 1]> ∅)) ∧
  Summary.distribution s !! 0 = Some 1 ∧
  Summary.distribution s !! 1 = Some 1 ∧
  Summary.distribution s !! 2 = Some 1 ∧
  Summary.cleanPRs s = 1 ∧
  Summary.cleanPct s = "33.3".
Proof.
  intros Hcounts.
  destruct prDetails as [|a [|b [|c [|d rest]]]]; try discriminate.
  injection Hcounts as Ha Hb Hc.
  assert (Hdist : Summary.changesRequestedDistribution [a; b; c]
                    = <[2 := 1]> (<[1 := 1]> (<[0 := 1]> (∅ : gmap nat nat)))).
  { unfold Summary.changesRequestedDistribution. cbn [fold_left].
    rewrite Ha, Hb, Hc. reflexivity. }
  cbn zeta. unfold Summary.cleanPct, Summary.cleanPRs.
  cbn [Summary.summary Summary.distribution Summary.totalPRs length].
  rewrite Hdist. repeat split; reflexivity.
Qed.

Lemma distribution_of_three_witness :
  let record n := PrLoop.record Sample.Date false Sample.mergedItem
                    (repeat (Sample.review "CHANGES_REQUESTED") n) [] [] in
  let prDetails := [record 0; record 1; record 2] in
  PRData.changesRequested <$> prDetails = [0; 1; 2] ∧
  Summary.cleanPct (Summary.summary prDetails) = "33.3".
Proof.
  intros record prDetails.
  assert (H : PRData.changesRequested <$> prDetails = [0; 1; 2]) by reflexivity.
  split; [exact H|].
  exact (proj2 (proj2 (proj2 (proj2 (proj2 (distribution_of_three prDetails H)))))).
Defined.

End Histogram.

(** ** The credential (C9) *)

Section Credential.

Import Cli.

(** C9: when neither [--token] nor [GITHUB_TOKEN] holds a token, the
    constructor of the client throws, and each command handler, which
    constructs the client first, prints the error and exits with status 1
    without any request to the API. *)
Theorem missing_token_is_fatal
    (prMetricsRest userStatsRest repoStatsRest summaryRest : GitHubClient.t → list Event)
    (c : Credentials) :
  truthyStr (optionsToken c) = false →
  truthyStr (GITHUB_TOKEN c) = false →
  let message := "GitHub token is required. Set GITHUB_TOKEN env var or use --token flag" in
  let fatal (trace : list Event) :=
    trace = [PrintError message; Exit 1] ∧ List.filter isApiRequest trace = [] in
  GitHubClient.new (token c) = inl message ∧
  fatal (prMetrics prMetricsRest c) ∧
  fatal (userStats userStatsRest c) ∧
  fatal (repoStats repoStatsRest c) ∧
  fatal (summary summaryRest c).
Proof.
  intros Hflag Henv message fatal.
  assert (Hnew : GitHubClient.new (token c) = inl message).
  { unfold GitHubClient.new, token. rewrite Hflag, Henv. reflexivity. }
  split; [exact Hnew|].
  unfold fatal, prMetrics, userStats, repoStats, summary, handler.
  rewrite Hnew. repeat split.
Qed.

Lemma missing_token_is_fatal_witness :
  let c := {| optionsToken := None; GITHUB_TOKEN := Some EmptyString |} in
  let rest (client : GitHubClient.t) :=
    [ApiRequest (pageRequest (GitHubClient.ListPublicEventsForUser "bob") 1)] in
  truthyStr (optionsToken c) = false ∧
  truthyStr (GITHUB_TOKEN c) = false ∧
  List.filter isApiRequest (summary rest c) = [].
Proof.
  intros c rest.
  assert (Hflag : truthyStr (optionsToken c) = false) by reflexivity.
  assert (Henv : truthyStr (GITHUB_TOKEN c) = false) by reflexivity.
  split; [exact Hflag|]. split; [exact Henv|].
  destruct (missing_token_is_fatal rest rest rest rest c Hflag Henv)
    as (_ & _ & _ & _ & _ & Hnone).
  exact Hnone.
Defined.

End Credential.

(** * Further properties of the code *)

(** ** The per-repository aggregates follow the records *)

Section RepoAggregates.

Variable Date : string → Z.
Variable userStats : bool.

Local Open Scope list_scope.
Local Open Scope nat_scope.

Lemma repoRecords_snoc_same (prDetails : list PRData.t) (prData : PRData.t) :
  repoRecords (PRData.repo prData) (prDetails ++ [prData])
    = repoRecords (PRData.repo prData) prDetails ++ [prData].
Proof.
  unfold repoRecords. rewrite List.filter_app. simpl. by rewrite String.eqb_refl.
Qed.

Lemma repoRecords_snoc_other (prDetails : list PRData.t) (prData : PRData.t)
    (name : string) :
  name ≠ PRData.repo prData →
  repoRecords name (prDetails ++ [prData]) = repoRecords name prDetails.
Proof.
  intros Hne. unfold repoRecords. rewrite List.filter_app. simpl.
  destruct (String.eqb_spec (PRData.repo prData) name) as [E|_]; [by subst|].
  by rewrite app_nil_r.
Qed.

Lemma aggregateOf_fresh (name : string) :
  RepoStats.repo (RepoStats.fresh name) = name ∧
  RepoStats.totalPRs (RepoStats.fresh name) = 0 ∧
  RepoStats.mergedPRs (RepoStats.fresh name) = 0 ∧
  RepoStats.totalComments (RepoStats.fresh name) = 0 ∧
  RepoStats.changesRequested (RepoStats.fresh name) = 0 ∧
  RepoStats.mergeTimesCount (RepoStats.fresh name) = 0.
Proof. done. Qed.

(** One successful turn keeps the correspondence. *)
Lemma aggregateOf_step (prDetails : list PRData.t) (repoMap : gmap string RepoStats.t)
    (prData : PRData.t) :
  (∀ name, aggregateOf name prDetails (repoMap !! name)) →
  ∀ name, aggregateOf name (prDetails ++ [prData]) (PrLoop.aggregate prData repoMap !! name).
Proof.
  intros Hinv name. destruct (decide (name = PRData.repo prData)) as [->|Hne].
  - rewrite aggregate_lookup. specialize (Hinv (PRData.repo prData)).
    unfold aggregateOf in *. rewrite repoRecords_snoc_same.
    set (mine := repoRecords (PRData.repo prData) prDetails) in *.
    rewrite !List.filter_app, !fmap_app, !sum_list_with_app, !length_app. cbn [List.filter].
    split; [by destruct mine|].
    destruct (repoMap !! PRData.repo prData) as [r|] eqn:E; cbn [default].
    + destruct Hinv as (_ & Hname & Htotal & Hmerged & Hcomments & Hchanges & Hcount).
      unfold PrLoop.bump. cbn [RepoStats.repo RepoStats.totalPRs RepoStats.mergedPRs
        RepoStats.totalComments RepoStats.changesRequested RepoStats.mergeTimesCount].
      change (id r) with r. rewrite Htotal, Hmerged, Hcomments, Hchanges, Hcount.
      destruct (PRData.merged prData), (JsNum.truthyOpt (PRData.timeToMerge prData));
        csimpl; repeat split; try done; lia.
    + rewrite Hinv. unfold PrLoop.bump. cbn.
      destruct (PRData.merged prData), (JsNum.truthyOpt (PRData.timeToMerge prData));
        csimpl; repeat split; try done; lia.
  - rewrite aggregate_lookup_other by done. unfold aggregateOf.
    rewrite repoRecords_snoc_other by done. apply Hinv.
Qed.

Lemma aggregateOf_fold (turns : list (SearchItem.t * PrLoop.Outcome)) (st : PrLoop.State) :
  (∀ name, aggregateOf name (PrLoop.prDetails st) (PrLoop.repoMap st !! name)) →
  ∀ name,
    aggregateOf name
      (PrLoop.prDetails (fold_left (PrLoop.processPR Date userStats) turns st))
      (PrLoop.repoMap (fold_left (PrLoop.processPR Date userStats) turns st) !! name).
Proof.
  revert st. induction turns as [|[pr outcome] turns IH]; intros st Hinv; [done|].
  simpl. apply IH. destruct outcome as [|reviews comments commits]; [done|].
  cbn [PrLoop.prDetails PrLoop.repoMap]. by apply aggregateOf_step.
Qed.

(** After any run of the per-PR loop, the aggregate stored for a repository
    counts exactly the records of that repository: their number, the merged
    ones, their comments and requested changes, and the ones with a truthy
    time to merge; a repository without a record has no aggregate. *)
Theorem repo_aggregates_match_records (turns : list (SearchItem.t * PrLoop.Outcome))
    (name : string) :
  let st := PrLoop.processPRs Date userStats turns in
  aggregateOf name (PrLoop.prDetails st) (PrLoop.repoMap st !! name).
Proof.
  cbn. unfold PrLoop.processPRs. apply aggregateOf_fold.
  intros name'. unfold aggregateOf, PrLoop.initial.
  cbn [PrLoop.repoMap PrLoop.prDetails]. by rewrite lookup_empty.
Qed.

End RepoAggregates.

(** ** Accounting of the per-PR loop *)

Section LoopAccounting.

Variable Date : string → Z.
Variable userStats : bool.

Local Open Scope list_scope.
Local Open Scope nat_scope.

(** What holds at the start and is kept by every turn holds after the loop. *)
Lemma processPRs_invariant (P : PrLoop.State → Prop) :
  P PrLoop.initial →
  (∀ st turn, P st → P (PrLoop.processPR Date userStats st turn)) →
  ∀ turns, P (PrLoop.processPRs Date userStats turns).
Proof.
  intros Hinit Hstep turns. unfold PrLoop.processPRs.
  generalize PrLoop.initial Hinit. induction turns as [|turn turns IH]; intros st Hst; [done|].
  simpl. by apply IH, Hstep.
Qed.

(** A record has a time to merge exactly when it is flagged merged. *)
Lemma record_timeToMerge (pr : SearchItem.t) (reviews : list Review.t)
    (comments : list Comment.t) (commits : list Commit.t) :
  let prData := PrLoop.record Date userStats pr reviews comments commits in
  is_Some (PRData.timeToMerge prData) ↔ PRData.merged prData = true.
Proof.
  cbn. unfold PrLoop.record.
  destruct (AiDetection.scanCommits (Commit.message <$> commits)) as [flag tools].
  cbn [PRData.timeToMerge PRData.merged]. unfold PrLoop.timeToMerge.
  destruct (truthyStr (SearchItem.merged_at pr)); split; try done.
Qed.

Lemma filter_length_le {A : Type} (f g : A → bool) (l : list A) :
  Forall (fun x => f x = true → g x = true) l →
  length (List.filter f l) ≤ length (List.filter g l).
Proof.
  induction 1 as [|x l Hx _ IH]; simpl; [done|].
  destruct (f x); [rewrite Hx by done; simpl; lia|].
  destruct (g x); simpl; lia.
Qed.

Lemma filter_Forall {A : Type} (P : A → Prop) (f : A → bool) (l : list A) :
  Forall P l → Forall P (List.filter f l).
Proof.
  induction 1 as [|x l Hx _ IH]; simpl; [done|].
  destruct (f x); [by constructor | done].
Qed.

Lemma records_timeToMerge (turns : list (SearchItem.t * PrLoop.Outcome)) :
  Forall (fun prData => is_Some (PRData.timeToMerge prData) ↔ PRData.merged prData = true)
    (PrLoop.prDetails (PrLoop.processPRs Date userStats turns)).
Proof.
  apply (processPRs_invariant
           (fun st => Forall (fun prData =>
              is_Some (PRData.timeToMerge prData) ↔ PRData.merged prData = true)
              (PrLoop.prDetails st))).
  - constructor.
  - intros st [pr [|reviews comments commits]] Hst; [done|].
    cbn [PrLoop.processPR PrLoop.prDetails]. apply Forall_app. split; [done|].
    constructor; [apply record_timeToMerge | constructor].
Qed.

(** Every pull request handed to the loop ends up either as a record or as
    a failed fetch; the records built by the loop have a time to merge
    exactly when they are flagged merged; [reposContributed], the size of
    [repoMap], is the number of distinct repositories among the records. *)
Theorem loop_accounting (turns : list (SearchItem.t * PrLoop.Outcome)) :
  let st := PrLoop.processPRs Date userStats turns in
  length (PrLoop.prDetails st) + length (rejected turns) = length turns ∧
  Forall (fun prData => is_Some (PRData.timeToMerge prData) ↔ PRData.merged prData = true)
    (PrLoop.prDetails st) ∧
  size (PrLoop.repoMap st)
    = size (list_to_set (PRData.repo <$> PrLoop.prDetails st) : gset string).
Proof.
  cbn. split; [|split; [apply records_timeToMerge|]].
  - unfold PrLoop.processPRs.
    assert (H : ∀ st,
              length (PrLoop.prDetails (fold_left (PrLoop.processPR Date userStats) turns st))
                + length (rejected turns)
              = length (PrLoop.prDetails st) + length turns).
    { induction turns as [|[pr outcome] turns IH]; intros st.
      - unfold rejected. simpl. lia.
      - unfold rejected in *. cbn [fold_left List.filter snd length].
        destruct outcome as [|reviews comments commits].
        + specialize (IH (PrLoop.processPR Date userStats st (pr, PrLoop.Rejected))).
          cbn [PrLoop.processPR PrLoop.prDetails length] in IH |- *. lia.
        + specialize (IH (PrLoop.processPR Date userStats st
                            (pr, PrLoop.Resolved reviews comments commits))).
          cbn [PrLoop.processPR PrLoop.prDetails length] in IH |- *.
          rewrite length_app in IH. cbn [length] in IH. lia. }
    rewrite H. done.
  - rewrite <- size_dom. f_equal. apply set_eq. intros name.
    rewrite elem_of_dom, elem_of_list_to_set, list_elem_of_fmap.
    pose proof (aggregateOf_fold Date userStats turns PrLoop.initial) as Hagg.
    specialize (Hagg (fun name' => eq_refl) name).
    fold (PrLoop.processPRs Date userStats turns) in Hagg.
    unfold aggregateOf in Hagg.
    destruct (PrLoop.repoMap (PrLoop.processPRs Date userStats turns) !! name) as [r|].
    + split; [|by eexists]. intros _. destruct Hagg as [Hne _].
      destruct (repoRecords name _) as [|prData rest] eqn:E; [done|].
      assert (Hin : In prData (repoRecords name
                (PrLoop.prDetails (PrLoop.processPRs Date userStats turns)))).
      { rewrite E. by left. }
      apply List.filter_In in Hin as [Hin Heq]. apply String.eqb_eq in Heq.
      exists prData. split; [done | by apply list_elem_of_In].
    + split; [by intros [? ?]|]. intros (prData & -> & Hin).
      assert (Hin' : In prData (repoRecords (PRData.repo prData)
                (PrLoop.prDetails (PrLoop.processPRs Date userStats turns)))).
      { apply List.filter_In. split; [by apply list_elem_of_In | apply String.eqb_refl]. }
      rewrite Hagg in Hin'. destruct Hin'.
Qed.

(** In every aggregate the pull requests that enter the average merge time
    are among the merged ones, and these among all of the repository, which
    has at least one. *)
Theorem aggregate_bounds (turns : list (SearchItem.t * PrLoop.Outcome))
    (name : string) (r : RepoStats.t) :
  PrLoop.repoMap (PrLoop.processPRs Date userStats turns) !! name = Some r →
  RepoStats.mergeTimesCount r ≤ RepoStats.mergedPRs r ∧
  RepoStats.mergedPRs r ≤ RepoStats.totalPRs r ∧
  1 ≤ RepoStats.totalPRs r.
Proof.
  intros Hr.
  pose proof (aggregateOf_fold Date userStats turns PrLoop.initial) as Hagg.
  specialize (Hagg (fun name' => eq_refl) name).
  fold (PrLoop.processPRs Date userStats turns) in Hagg. rewrite Hr in Hagg.
  destruct Hagg as (Hne & _ & Htotal & Hmerged & _ & _ & Hcount).
  rewrite Htotal, Hmerged, Hcount. split; [|split].
  - apply filter_length_le. apply filter_Forall.
    eapply Forall_impl; [apply records_timeToMerge|].
    intros prData Hiff Htruthy. apply Hiff.
    destruct (PRData.timeToMerge prData); [by eexists | done].
  - apply List.filter_length_le.
  - destruct (repoRecords name _); [done | simpl; lia].
Qed.

End LoopAccounting.

Lemma aggregate_bounds_witness :
  let turns := [(Sample.mergedItem, Sample.resolved); (Sample.quickItem, Sample.resolved)] in
  ∃ r,
    PrLoop.repoMap (PrLoop.processPRs Sample.Date false turns) !! "adobe/helix" = Some r ∧
    (RepoStats.mergeTimesCount r ≤ RepoStats.mergedPRs r)%nat ∧
    (RepoStats.mergedPRs r ≤ RepoStats.totalPRs r)%nat.
Proof.
  intros turns.
  assert (H : is_Some (PrLoop.repoMap (PrLoop.processPRs Sample.Date false turns)
                         !! "adobe/helix")).
  { vm_compute. by eexists. }
  destruct H as [r Hr]. exists r. split; [exact Hr|].
  destruct (aggregate_bounds Sample.Date false turns "adobe/helix" r Hr) as (H1 & H2 & _).
  split; [exact H1 | exact H2].
Defined.

(** ** The changes-requested histogram and its buckets *)

Section HistogramCounts.

Local Open Scope list_scope.
Local Open Scope nat_scope.

Lemma withChanges_snoc (p : nat → bool) (seen : list PRData.t) (pr : PRData.t) :
  withChanges p (seen ++ [pr])
    = withChanges p seen + (if p (PRData.changesRequested pr) then 1 else 0).
Proof.
  unfold withChanges. rewrite List.filter_app, length_app. simpl.
  by destruct (p (PRData.changesRequested pr)).
Qed.

Lemma histogramOf_step (seen : list PRData.t) (dist : gmap nat nat) (pr : PRData.t) :
  histogramOf seen dist →
  histogramOf (seen ++ [pr])
    (<[PRData.changesRequested pr :=
         JsNum.orCount (default 0 (dist !! PRData.changesRequested pr)) 0 + 1]> dist).
Proof.
  intros Hinv k. rewrite withChanges_snoc.
  destruct (decide (PRData.changesRequested pr = k)) as [<-|Hne].
  - rewrite lookup_insert_eq, Nat.eqb_refl. rewrite (Hinv (PRData.changesRequested pr)).
    destruct (decide (withChanges _ seen = 0)) as [->|Hpos]; cbn.
    + done.
    + rewrite decide_False by lia. f_equal.
      destruct (withChanges _ seen); [done | cbn; lia].
  - rewrite lookup_insert_ne by done. rewrite (Hinv k).
    destruct (Nat.eqb_spec k (PRData.changesRequested pr)) as [E|_]; [by subst|].
    by rewrite Nat.add_0_r.
Qed.

Lemma histogramOf_fold (l seen : list PRData.t) (dist : gmap nat nat) :
  histogramOf seen dist →
  histogramOf (seen ++ l)
    (fold_left
       (fun dist pr =>
          let changes := PRData.changesRequested pr in
          <[changes := JsNum.orCount (default 0 (dist !! changes)) 0 + 1]> dist)
       l dist).
Proof.
  revert seen dist. induction l as [|pr l IH]; intros seen dist Hinv; simpl.
  - by rewrite app_nil_r.
  - replace (seen ++ pr :: l) with ((seen ++ [pr]) ++ l) by (by rewrite <- app_assoc).
    apply IH. by apply histogramOf_step.
Qed.

Lemma histogram_lookup (prDetails : list PRData.t) :
  histogramOf prDetails (Summary.changesRequestedDistribution prDetails).
Proof.
  unfold Summary.changesRequestedDistribution.
  apply (histogramOf_fold prDetails [] ∅). intros k. by rewrite lookup_empty.
Qed.

Lemma sumWhere_insert (p : nat → bool) (dist : gmap nat nat) (k v : nat) :
  sumWhere p (<[k := v]> dist) + (if p k then default 0 (dist !! k) else 0)
    = sumWhere p dist + (if p k then v else 0).
Proof.
  unfold sumWhere. destruct (dist !! k) as [n|] eqn:E.
  - rewrite <- insert_delete_eq.
    rewrite map_to_list_insert by apply lookup_delete_eq.
    rewrite <- (map_to_list_delete dist k n E). cbn. destruct (p k); lia.
  - rewrite map_to_list_insert by done. cbn. destruct (p k); lia.
Qed.

Lemma sumWhere_histogram (p : nat → bool) (l seen : list PRData.t) (dist : gmap nat nat) :
  histogramOf seen dist →
  sumWhere p dist = withChanges p seen →
  sumWhere p
    (fold_left
       (fun dist pr =>
          let changes := PRData.changesRequested pr in
          <[changes := JsNum.orCount (default 0 (dist !! changes)) 0 + 1]> dist)
       l dist)
  = withChanges p (seen ++ l).
Proof.
  revert seen dist. induction l as [|pr l IH]; intros seen dist Hinv Hsum; simpl.
  - by rewrite app_nil_r.
  - replace (seen ++ pr :: l) with ((seen ++ [pr]) ++ l) by (by rewrite <- app_assoc).
    apply IH; [by apply histogramOf_step|].
    rewrite withChanges_snoc, <- Hsum.
    pose proof (sumWhere_insert p dist (PRData.changesRequested pr)
                  (JsNum.orCount (default 0 (dist !! PRData.changesRequested pr)) 0 + 1))
      as Hins.
    assert (Hor : ∀ n, JsNum.orCount n 0 = n) by (by intros []).
    rewrite Hor in Hins |- *. destruct (p (PRData.changesRequested pr)); lia.
Qed.

Lemma multipleRevisions_sumWhere (s : Summary.t) :
  Buckets.multipleRevisions s = sumWhere (Nat.leb 2) (Summary.distribution s).
Proof.
  unfold Buckets.multipleRevisions, sumWhere.
  rewrite (fold_left_sum (fun entry : nat * nat => entry.2)). cbn.
  induction (map_to_list (Summary.distribution s)) as [|[k v] l IH]; [done|].
  destruct k as [|[|k]]; csimpl in *; lia.
Qed.

(** Every record has 0, 1 or at least 2 requested changes. *)
Lemma withChanges_partition (prDetails : list PRData.t) :
  withChanges (Nat.eqb 0) prDetails + withChanges (Nat.eqb 1) prDetails
    + withChanges (Nat.leb 2) prDetails
  = length prDetails.
Proof.
  assert (Hcons : ∀ p pr l,
            withChanges p (pr :: l)
              = (if p (PRData.changesRequested pr) then 1 else 0) + withChanges p l).
  { intros p pr l. unfold withChanges. cbn [List.filter].
    by destruct (p (PRData.changesRequested pr)). }
  induction prDetails as [|pr l IH]; [done|].
  rewrite !Hcons. cbn [length].
  set (clean := withChanges (Nat.eqb 0) l) in *.
  set (minor := withChanges (Nat.eqb 1) l) in *.
  set (multiple := withChanges (Nat.leb 2) l) in *.
  clearbody clean minor multiple.
  destruct (PRData.changesRequested pr) as [|[|n]]; cbn [Nat.eqb Nat.leb]; lia.
Qed.

(** The histogram of the summary holds, for every count of requested
    changes that occurs, the number of records with that count, and nothing
    for the other counts; the three buckets shown as "Code Quality" (clean,
    one revision, two or more) are the numbers of records with 0, with 1
    and with at least 2 requested changes, and add up to [totalPRs]. *)
Theorem histogram_buckets (prDetails : list PRData.t) :
  let s := Summary.summary prDetails in
  (∀ k, Summary.distribution s !! k =
          if decide (withChanges (Nat.eqb k) prDetails = 0) then None
          else Some (withChanges (Nat.eqb k) prDetails)) ∧
  Summary.cleanPRs s = withChanges (Nat.eqb 0) prDetails ∧
  Buckets.minorRevisions s = withChanges (Nat.eqb 1) prDetails ∧
  Buckets.multipleRevisions s = withChanges (Nat.leb 2) prDetails ∧
  Summary.cleanPRs s + Buckets.minorRevisions s + Buckets.multipleRevisions s
    = Summary.totalPRs s.
Proof.
  intros s. pose proof (histogram_lookup prDetails) as Hlook.
  assert (Hor : ∀ n, JsNum.orCount n 0 = n) by (by intros []).
  assert (Hclean : Summary.cleanPRs s = withChanges (Nat.eqb 0) prDetails).
  { unfold Summary.cleanPRs. subst s. cbn [Summary.summary Summary.distribution].
    rewrite Hor, (Hlook 0). by destruct (decide _) as [->|]. }
  assert (Hminor : Buckets.minorRevisions s = withChanges (Nat.eqb 1) prDetails).
  { unfold Buckets.minorRevisions. subst s. cbn [Summary.summary Summary.distribution].
    rewrite Hor, (Hlook 1). by destruct (decide _) as [->|]. }
  assert (Hmultiple : Buckets.multipleRevisions s = withChanges (Nat.leb 2) prDetails).
  { rewrite multipleRevisions_sumWhere. subst s. cbn [Summary.summary Summary.distribution].
    unfold Summary.changesRequestedDistribution.
    apply (sumWhere_histogram (Nat.leb 2) prDetails [] ∅).
    - intros k. by rewrite lookup_empty.
    - unfold sumWhere. by rewrite map_to_list_empty. }
  split; [exact Hlook|]. split; [exact Hclean|]. split; [exact Hminor|].
  split; [exact Hmultiple|]. rewrite Hclean, Hminor, Hmultiple.
  subst s. cbn [Summary.summary Summary.totalPRs]. apply withChanges_partition.
Qed.

End HistogramCounts.

(** ** Counts that never overlap *)

Section DisjointCounts.

Local Open Scope nat_scope.

Lemma two_filters_le {A : Type} (f g : A → bool) (l : list A) :
  (∀ x, f x = true → g x = true → False) →
  length (List.filter f l) + length (List.filter g l) ≤ length l.
Proof.
  intros Hdisjoint. induction l as [|x l IH]; simpl; [done|].
  specialize (Hdisjoint x). destruct (f x), (g x); simpl; try lia.
  all: by destruct Hdisjoint.
Qed.

(** Whatever the records and the issues are, a pull request is never
    counted both as merged and as closed-not-merged, nor both as open and
    as closed: [mergedPRs + closedPRs <= totalPRs] and
    [openPRs + closedPRs <= totalPRs]; likewise
    [openIssues + closedIssues <= totalIssues]. *)
Theorem counts_do_not_overlap (prDetails : list PRData.t) (issues : list SearchItem.t) :
  let s := Summary.summary prDetails in
  Summary.nMergedPRs s + Summary.nClosedPRs s ≤ Summary.totalPRs s ∧
  Summary.nOpenPRs s + Summary.nClosedPRs s ≤ Summary.totalPRs s ∧
  length (Buckets.openIssues issues) + length (Buckets.closedIssues issues) ≤ length issues.
Proof.
  cbn. split; [|split]; apply two_filters_le.
  - intros pr Hm Hc. rewrite Hm in Hc. by apply andb_true_iff in Hc as [_ ?].
  - intros pr Ho Hc. apply andb_true_iff in Hc as [Hc _].
    apply String.eqb_eq in Ho, Hc. congruence.
  - intros i Ho Hc. apply String.eqb_eq in Ho, Hc. congruence.
Qed.

End DisjointCounts.

(** ** Consistency of the per-PR metrics of the pr command *)

Section MetricsConsistency.

Local Open Scope nat_scope.

Lemma size_list_to_set_le (l : list string) :
  size (list_to_set l : gset string) ≤ length l.
Proof.
  induction l as [|x l IH]; cbn [list_to_set length].
  - by rewrite size_empty.
  - rewrite size_union_alt, size_singleton.
    pose proof (subseteq_size (list_to_set l ∖ {[x]}) (list_to_set l : gset string)) as H.
    assert (Hsub : (list_to_set l ∖ {[x]} : gset string) ⊆ list_to_set l) by set_solver.
    specialize (H Hsub). lia.
Qed.

(** The metrics of one pull request are consistent: the comment total is
    the sum of its two parts; the reviews that request changes and the
    approvals are distinct reviews; there are no more reviewers than
    reviews, no fewer participants than reviewers and no more participants
    than comments and reviews; and a time to merge is only reported for a
    pull request flagged merged. *)
Theorem metrics_are_consistent (Date : string → Z) (prData : PrMetrics.Details) :
  let result := PrMetrics.calculatePRMetrics Date prData in
  let m := PrMetrics.metrics result in
  PrMetrics.totalComments m = PrMetrics.nIssueComments m + PrMetrics.nReviewComments m ∧
  PrMetrics.changesRequested m + PrMetrics.approved m ≤ PrMetrics.nReviews m ∧
  PrMetrics.uniqueReviewers m ≤ PrMetrics.nReviews m ∧
  PrMetrics.uniqueReviewers m ≤ PrMetrics.uniqueParticipants m ∧
  PrMetrics.uniqueParticipants m ≤ PrMetrics.totalComments m + PrMetrics.nReviews m ∧
  (is_Some (PrMetrics.timeToMergeInDays m) → PrMetrics.merged result = true) ∧
  (PrMetrics.merged result = true ↔ is_Some (PrMetrics.mergedAt result)).
Proof.
  destruct prData as [pr issueComments reviewComments reviews commits].
  cbn. split; [done|]. split; [|split; [|split; [|split; [|split]]]].
  - apply two_filters_le. intros r Hc Ha. apply String.eqb_eq in Hc, Ha. congruence.
  - etrans; [apply size_list_to_set_le|]. by rewrite length_fmap.
  - apply subseteq_size. set_solver.
  - rewrite <- list_to_set_app.
    etrans; [apply size_list_to_set_le|]. rewrite !length_app, !length_fmap. lia.
  - unfold PrMetrics.roundedDays, PrMetrics.daysUntil.
    destruct (PullRequest.merged_at pr) as [at_|]; cbn.
    + done.
    + by intros [? ?].
  - apply bool_decide_eq_true.
Qed.

End MetricsConsistency.

(** ** The tools that the detection can report *)

Section KnownTools.

Import AiDetection.

Local Open Scope nat_scope.

Lemma pattern_tool_known (p : Regex.re * string) : p ∈ aiPatterns → p.2 ∈ knownTools.
Proof.
  unfold aiPatterns, knownTools. intros Hp.
  repeat (apply elem_of_cons in Hp as [-> | Hp]; [cbn; set_solver|]).
  by apply elem_of_nil in Hp.
Qed.

Lemma known_length (tools : list string) :
  NoDup tools → (∀ tool, tool ∈ tools → tool ∈ knownTools) → length tools ≤ 6.
Proof.
  intros Hnd Hsub. apply (submseteq_length tools knownTools). by apply NoDup_submseteq.
Qed.

(** Whatever the commit messages are, the detection only reports the six
    tool names of its pattern table: the [aiTools] of a message and of a
    record hold at most six names, all from that table. *)
Theorem reported_tools_are_known (Date : string → Z) (userStats : bool)
    (message : string) (pr : SearchItem.t) (reviews : list Review.t)
    (comments : list Comment.t) (commits : list Commit.t) :
  let detected := aiTools (detectAICoAuthorship message) in
  let recorded := PRData.aiTools (PrLoop.record Date userStats pr reviews comments commits) in
  (∀ tool, tool ∈ detected → tool ∈ knownTools) ∧ length detected ≤ 6 ∧
  (∀ tool, tool ∈ recorded → tool ∈ knownTools) ∧ length recorded ≤ 6.
Proof.
  intros detected recorded.
  assert (Hdetect : ∀ m tool, tool ∈ aiTools (detectAICoAuthorship m) → tool ∈ knownTools).
  { intros m tool Hin. apply detect_elem in Hin as (p & Hp & _ & <-).
    by apply pattern_tool_known. }
  assert (Hrecorded : NoDup recorded ∧ ∀ tool, tool ∈ recorded → tool ∈ knownTools).
  { subst recorded.
    destruct (record_ai Date userStats pr reviews comments commits) as [_ ->].
    destruct (scan_fold (Commit.message <$> commits) (false, []) (NoDup_nil_2 (A:=string)))
      as (Hnd & _ & Hel).
    split; [exact Hnd|]. intros tool Hin. apply Hel in Hin as [Hin | (m & _ & Hin)].
    - by apply elem_of_nil in Hin.
    - by apply (Hdetect m). }
  split; [apply Hdetect|]. split; [apply known_length; [apply detect_NoDup | apply Hdetect]|].
  split; [apply Hrecorded|]. apply known_length; apply Hrecorded.
Qed.

End KnownTools.

(** ** Which token the client gets *)

Section TokenPrecedence.

Import Cli.

(** With a token on the command line the client is built with it, whatever
    the environment holds; without one, with the token of the environment;
    in both cases the handler goes on with the statements after the
    construction. *)
Theorem token_precedence (rest : GitHubClient.t → list Event) (c : Credentials)
    (t : string) :
  t ≠ EmptyString →
  (optionsToken c = Some t ∨
   (truthyStr (optionsToken c) = false ∧ GITHUB_TOKEN c = Some t)) →
  let client :=
    {| GitHubClient.auth := t; GitHubClient.userAgent := "github-metrics-calculator/1.0.0" |} in
  GitHubClient.new (token c) = inr client ∧
  prMetrics rest c = rest client ∧
  userStats rest c = rest client ∧
  repoStats rest c = rest client ∧
  summary rest c = rest client.
Proof.
  intros Ht Hsource client.
  assert (Htoken : token c = Some t).
  { unfold token. destruct Hsource as [Hflag | [Hflag Henv]].
    - rewrite Hflag. by destruct t.
    - by rewrite Hflag. }
  assert (Hnew : GitHubClient.new (token c) = inr client).
  { unfold GitHubClient.new. rewrite Htoken. by destruct t. }
  unfold prMetrics, userStats, repoStats, summary, handler. by rewrite Hnew.
Qed.

Lemma token_precedence_witness :
  let c := {| optionsToken := Some "ghp_flag"; GITHUB_TOKEN := Some "ghp_env" |} in
  let rest (client : GitHubClient.t) := [PrintInfo (GitHubClient.auth client)] in
  "ghp_flag" ≠ EmptyString ∧ optionsToken c = Some "ghp_flag" ∧
  summary rest c = [PrintInfo "ghp_flag"].
Proof.
  intros c rest.
  assert (Ht : "ghp_flag" ≠ EmptyString) by discriminate.
  assert (Hflag : optionsToken c = Some "ghp_flag") by reflexivity.
  split; [exact Ht|]. split; [exact Hflag|].
  destruct (token_precedence rest c "ghp_flag" Ht (or_introl Hflag)) as (_ & _ & _ & _ & H).
  exact H.
Defined.

End TokenPrecedence.

(** ** The client-side filters of the listing fetches *)

Section ListingFilters.

Import GitHubClient.

Local Open Scope list_scope.

Variable Date : string → Z.

(** What the loop condition does not falsify and the body keeps holds when
    the loop ends. *)
Lemma while_invariant {St : Type} (P : St → Prop) (cond : St → bool) (body : St → St) :
  (∀ st, P st → P (body st)) →
  ∀ fuel st st', while fuel cond body st = Some st' → P st → P st'.
Proof.
  intros Hbody. induction fuel as [|fuel IH]; intros st st' Hrun Hst; [done|].
  simpl in Hrun. destruct (cond st).
  - by apply (IH (body st)), Hbody.
  - by injection Hrun as <-.
Qed.

Lemma dateFilter_elem (options : Options) (prs : list ListedPR.t) (pr : ListedPR.t) :
  pr ∈ dateFilter Date options prs → pr ∈ prs ∧ inDateRange Date options pr.
Proof.
  unfold dateFilter, inDateRange. rewrite !list_elem_of_In.
  destruct (truthyStr (since options)), (truthyStr (until options));
    rewrite ?List.filter_In; rewrite ?Z.leb_le; naive_solver.
Qed.

(** Every pull request that [fetchUserPRs] returns was delivered by the
    remote end in answer to one of its requests, is by the requested user
    and was created within the [since]/[until] range; the same holds for
    [fetchRepoPRs] apart from the user. *)
Theorem listed_prs_are_filtered (octokit : Request → list ListedPR.t)
    (owner repo username : string) (options : Options) (fuel : nat)
    (st : Paging ListedPR.t) (pr : ListedPR.t) :
  pr ∈ items st →
  (fetchUserPRs Date octokit owner repo username options fuel = Some st →
   served octokit st pr ∧ ListedPR.user_login pr = username ∧ inDateRange Date options pr) ∧
  (fetchRepoPRs Date octokit owner repo options fuel = Some st →
   served octokit st pr ∧ inDateRange Date options pr).
Proof.
  intros Hin. split; intros Hrun.
  - revert pr Hin.
    refine (while_invariant
              (fun st => ∀ pr, pr ∈ items st →
                 served octokit st pr ∧ ListedPR.user_login pr = username ∧
                 inDateRange Date options pr) _ _ _ fuel start st Hrun _).
    + intros s Hs pr. cbn [turn items requests]. rewrite elem_of_app.
      intros [Hold | Hnew].
      * destruct (Hs pr Hold) as ((request & Hreq & Hserved) & Hrest).
        split; [|done]. exists request. split; [|done]. apply elem_of_app. by left.
      * apply dateFilter_elem in Hnew as [Hnew Hrange].
        apply list_elem_of_In, List.filter_In in Hnew as [Hnew Huser].
        apply String.eqb_eq in Huser. split; [|done].
        eexists. split; [apply elem_of_app; right; apply list_elem_of_here|].
        by apply list_elem_of_In.
    + intros pr Hpr. by apply elem_of_nil in Hpr.
  - revert pr Hin.
    refine (while_invariant
              (fun st => ∀ pr, pr ∈ items st →
                 served octokit st pr ∧ inDateRange Date options pr)
              _ _ _ fuel start st Hrun _).
    + intros s Hs pr. cbn [turn items requests]. rewrite elem_of_app.
      intros [Hold | Hnew].
      * destruct (Hs pr Hold) as ((request & Hreq & Hserved) & Hrest).
        split; [|done]. exists request. split; [|done]. apply elem_of_app. by left.
      * apply dateFilter_elem in Hnew as [Hnew Hrange]. split; [|done].
        eexists. split; [apply elem_of_app; right; apply list_elem_of_here | done].
    + intros pr Hpr. by apply elem_of_nil in Hpr.
Qed.

End ListingFilters.
